(** * SSGOG/DeepLearningProject: the Flask front-end [app.py]

    A shallow embedding of the [/predict] request handler of [src/app.py]
    and of the library functions it calls, followed by the properties the
    specification states about the handler.

    Conventions.
    - A Python [str] is a Rocq [string]; every character below 128 is the
      ASCII character of that code, characters from 128 on stand for the
      bytes of non-ASCII text.
    - A Python [float] is a primitive binary64 [float].
    - A Python [dict] is an association list in insertion order.
    - The debug [print] calls of the handler are not modelled. *)

From Stdlib Require Import String Ascii List ZArith Bool Lia.
From Stdlib Require Import PrimFloat DecimalString.
Import ListNotations.

Local Open Scope list_scope.
Local Open Scope string_scope.

(* ================================================================== *)
(** ** Python string primitives *)

Module pystr.

(** Characters as numbers, for range tests. *)
Definition code (c : ascii) : N := N_of_ascii c.

Definition between (lo hi : N) (c : ascii) : bool :=
  (lo <=? code c)%N && (code c <=? hi)%N.

Definition is_ascii (c : ascii) : bool := (code c <? 128)%N.

Definition is_upper (c : ascii) : bool := between 65 90 c.
Definition is_lower (c : ascii) : bool := between 97 122 c.
Definition is_digit (c : ascii) : bool := between 48 57 c.

(** The ASCII characters [str.split()] treats as white space:
    TAB, LF, VT, FF, CR, FS, GS, RS, US and the space. *)
Definition is_space (c : ascii) : bool :=
  between 9 13 c || between 28 32 c.

(** [all p s]: every character of [s] satisfies [p]. *)
Fixpoint all (p : ascii -> bool) (s : string) : bool :=
  match s with
  | EmptyString => true
  | String c r => p c && all p r
  end.

(** [s.isascii()] *)
Definition isascii (s : string) : bool := all is_ascii s.

Fixpoint map (f : ascii -> ascii) (s : string) : string :=
  match s with
  | EmptyString => EmptyString
  | String c r => String (f c) (map f r)
  end.

(** [re.sub("[^...]", "", s)] for a character class: keep what [p] accepts. *)
Fixpoint filter (p : ascii -> bool) (s : string) : string :=
  match s with
  | EmptyString => EmptyString
  | String c r => if p c then String c (filter p r) else filter p r
  end.

(** [s.replace(a, b)] for one-character [a] and [b]. *)
Definition replace (a b : ascii) (s : string) : string :=
  map (fun c => if Ascii.eqb c a then b else c) s.

Definition lower_char (c : ascii) : ascii :=
  if is_upper c then ascii_of_N (code c + 32) else c.

(** [s.lower()], on the ASCII letters. *)
Definition lower (s : string) : string := map lower_char s.

(** [s.lstrip(chars)], the set [chars] given as a predicate. *)
Fixpoint lstrip (p : ascii -> bool) (s : string) : string :=
  match s with
  | EmptyString => EmptyString
  | String c r => if p c then lstrip p r else s
  end.

(** [s.rstrip(chars)] *)
Fixpoint rstrip (p : ascii -> bool) (s : string) : string :=
  match s with
  | EmptyString => EmptyString
  | String c r =>
      match rstrip p r with
      | EmptyString => if p c then EmptyString else String c EmptyString
      | r' => String c r'
      end
  end.

(** [s.strip(chars)] *)
Definition strip (p : ascii -> bool) (s : string) : string :=
  rstrip p (lstrip p s).

(** A finished word of [str.split()]: empty words are dropped. *)
Definition flush (word : string) : list string :=
  match word with
  | EmptyString => []
  | _ => [word]
  end.

(** [s.split()]: the maximal runs of non-space characters, [word] being
    the run read so far. *)
Fixpoint split_from (word s : string) : list string :=
  match s with
  | EmptyString => flush word
  | String c r =>
      if is_space c then (flush word ++ split_from EmptyString r)%list
      else split_from (word ++ String c EmptyString) r
  end.

Definition split (s : string) : list string := split_from EmptyString s.

(** [sep.join(words)] *)
Definition join (sep : string) (words : list string) : string :=
  String.concat sep words.

(** [s.endswith(suffix)] *)
Definition endswith (s suffix : string) : bool :=
  let n := String.length s in
  let k := String.length suffix in
  (k <=? n)%nat && String.eqb (substring (n - k) k s) suffix.

(** [s.endswith((suffix1, suffix2, ...))] *)
Definition endswith_any (s : string) (suffixes : list string) : bool :=
  existsb (endswith s) suffixes.

(** [str(n)] for an [int]. *)
Definition of_int (n : Z) : string := NilZero.string_of_int (Z.to_int n).

End pystr.

(* ================================================================== *)
(** ** [werkzeug.utils.secure_filename] *)

Module werkzeug.
Section SecureFilename.

(** The first two statements of [secure_filename],
    [unicodedata.normalize("NFKD", s).encode("ascii", "ignore").decode("ascii")],
    depend on the Unicode decomposition tables and are a parameter. *)
Variable nfkd_ascii : string -> string.

(** The complement of the class [[^A-Za-z0-9_.-]] of
    [_filename_ascii_strip_re]. *)
Definition safe_char (c : ascii) : bool :=
  pystr.is_upper c || pystr.is_lower c || pystr.is_digit c
  || Ascii.eqb c "_" || Ascii.eqb c "." || Ascii.eqb c "-".

(** The character set of [.strip("._")]. *)
Definition dot_or_underscore (c : ascii) : bool :=
  Ascii.eqb c "." || Ascii.eqb c "_".

(** Modelled from the spec: [secure_filename] is imported from
    [werkzeug.utils] (app.py line 2) and its body is not under src/.
    Section 4.1 says the upload handler "sanitizes the filename (strips
    path separators and unsafe characters)".  The model is the library's
    algorithm on a POSIX host ([os.sep] is "/", [os.path.altsep] is
    [None]): fold to ASCII, turn each path separator into a space, join
    the white-space separated words with "_", drop every character
    outside [A-Za-z0-9_.-], and strip leading and trailing dots and
    underscores. *)
Definition secure_filename (filename : string) : string :=
  let filename := nfkd_ascii filename in
  let filename := pystr.replace "/" " " filename in
  pystr.strip dot_or_underscore
    (pystr.filter safe_char (pystr.join "_" (pystr.split filename))).

End SecureFilename.

(** [s.encode("ascii", "ignore").decode("ascii")]: the ASCII fold of a
    string none of whose characters has a compatibility decomposition.
    It drops an accented letter where NFKD would keep its base letter. *)
Definition ascii_ignore (s : string) : string :=
  pystr.filter pystr.is_ascii s.

End werkzeug.


(* ================================================================== *)
(** ** [posixpath]: the [os.path] functions of a POSIX host *)

Module posixpath.

Definition sep : ascii := "/".

Definition startswith_sep (p : string) : bool :=
  match p with
  | String c _ => Ascii.eqb c sep
  | EmptyString => false
  end.

(** [os.path.join(a, b)] *)
Definition join (a b : string) : string :=
  if startswith_sep b then b
  else if String.eqb a "" || pystr.endswith a "/" then a ++ b
  else a ++ "/" ++ b.

(** [os.path.join] of several parts, as [relpath] calls it. *)
Definition join_all (parts : list string) : string :=
  match parts with
  | [] => ""
  | a :: p => fold_left join p a
  end.

(** [p.rfind(c)]: the last index of [c] in [p], or -1. *)
Fixpoint rfind_from (i : Z) (c : ascii) (p : string) : Z :=
  match p with
  | EmptyString => (-1)%Z
  | String d r =>
      let later := rfind_from (i + 1) c r in
      if (0 <=? later)%Z then later
      else if Ascii.eqb d c then i else (-1)%Z
  end.

Definition rfind (c : ascii) (p : string) : Z := rfind_from 0 c p.

(** The [while filenameIndex < dotIndex] loop of [genericpath._splitext]:
    is there a character other than the dot among the [n] characters
    from [filenameIndex] on? *)
Fixpoint has_non_dot (p : string) (filenameIndex n : nat) : bool :=
  match n with
  | O => false
  | S n' =>
      match String.get filenameIndex p with
      | Some c =>
          if Ascii.eqb c "." then has_non_dot p (S filenameIndex) n'
          else true
      | None => true
      end
  end.

(** [os.path.splitext(p)] *)
Definition splitext (p : string) : string * string :=
  let sepIndex := rfind sep p in
  let dotIndex := rfind "." p in
  if (sepIndex <? dotIndex)%Z
     && has_non_dot p (Z.to_nat (sepIndex + 1))
                      (Z.to_nat (dotIndex - (sepIndex + 1)))
  then (substring 0 (Z.to_nat dotIndex) p,
        substring (Z.to_nat dotIndex) (String.length p - Z.to_nat dotIndex) p)
  else (p, "").

(** [p.split("/")]: the pieces between separators, empty ones included;
    [piece] is the piece read so far. *)
Fixpoint split_sep_from (piece p : string) : list string :=
  match p with
  | EmptyString => [piece]
  | String c r =>
      if Ascii.eqb c sep then piece :: split_sep_from "" r
      else split_sep_from (piece ++ String c "") r
  end.

Definition split_sep (p : string) : list string := split_sep_from "" p.

(** The component loop of [normpath]; [new_comps] is kept reversed. *)
Fixpoint norm_comps (initial_slashes : nat) (new_comps comps : list string)
  : list string :=
  match comps with
  | [] => rev new_comps
  | comp :: rest =>
      if String.eqb comp "" || String.eqb comp "." then
        norm_comps initial_slashes new_comps rest
      else if negb (String.eqb comp "..")
              || ((initial_slashes =? 0)%nat
                  && match new_comps with [] => true | _ => false end)
              || match new_comps with
                 | last :: _ => String.eqb last ".."
                 | [] => false
                 end
      then norm_comps initial_slashes (comp :: new_comps) rest
      else norm_comps initial_slashes (tl new_comps) rest
  end.

(** [os.path.normpath(path)] *)
Definition normpath (path : string) : string :=
  if String.eqb path "" then "."
  else
    let initial_slashes :=
      if prefix "///" path then 1%nat
      else if prefix "//" path then 2%nat
      else if prefix "/" path then 1%nat
      else 0%nat in
    let comps := norm_comps initial_slashes [] (split_sep path) in
    let path :=
      match initial_slashes with
      | 0%nat => ""
      | 1%nat => "/"
      | _ => "//"
      end ++ String.concat "/" comps in
    if String.eqb path "" then "." else path.

(** [os.path.abspath(path)] with the working directory [cwd]. *)
Definition abspath (cwd path : string) : string :=
  normpath (if startswith_sep path then path else join cwd path).

Definition nonempty (x : string) : bool := negb (String.eqb x "").

(** [len(commonprefix([a, b]))] on lists of components. *)
Fixpoint common (a b : list string) : nat :=
  match a, b with
  | x :: a', y :: b' => if String.eqb x y then S (common a' b') else 0
  | _, _ => 0
  end.

(** [os.path.relpath(path, start)] with the working directory [cwd];
    [None] is the [ValueError] raised for an empty [path]. *)
Definition relpath (cwd path start : string) : option string :=
  if String.eqb path "" then None
  else
    let start_list := List.filter nonempty (split_sep (abspath cwd start)) in
    let path_list := List.filter nonempty (split_sep (abspath cwd path)) in
    let i := common start_list path_list in
    let rel_list :=
      (repeat ".." (List.length start_list - i) ++ skipn i path_list)%list in
    match rel_list with
    | [] => Some "."
    | _ => Some (join_all rel_list)
    end.

End posixpath.


(* ================================================================== *)
(** ** Python dictionaries *)

Module pydict.
Section Dict.

Context {K V : Type}.
Variable eqb : K -> K -> bool.

(** A [dict]: the items in insertion order, keys pairwise distinct. *)
Definition dict : Type := list (K * V).

(** [d.get(k)] *)
Fixpoint get (d : dict) (k : K) : option V :=
  match d with
  | [] => None
  | (k', v) :: rest => if eqb k' k then Some v else get rest k
  end.

(** [d.get(k, default)] *)
Definition get_default (d : dict) (k : K) (default : V) : V :=
  match get d k with
  | Some v => v
  | None => default
  end.

(** [d[k] = v]: an existing key keeps its place, a new one goes last. *)
Fixpoint set (d : dict) (k : K) (v : V) : dict :=
  match d with
  | [] => [(k, v)]
  | (k', v') :: rest =>
      if eqb k' k then (k', v) :: rest else (k', v') :: set rest k v
  end.

(** [list(d.values())] *)
Definition values (d : dict) : list V := List.map snd d.

End Dict.

Arguments dict : clear implicits.

End pydict.

Abbreviation dict := pydict.dict.

(** [sum(counts.values())] *)
Definition sum_values {K : Type} (counts : dict K Z) : Z :=
  fold_right Z.add 0%Z (pydict.values counts).

(* ================================================================== *)
(** ** Exceptions, and the monad of the handler *)

Inductive exn : Type :=
| AttributeError        (* an attribute of [None] *)
| UnboundLocalError     (* a local variable read before its assignment *)
| ValueError
| OSError (errno : string)
| ModelError (what : string).

Inductive result (A : Type) : Type :=
| Ok (a : A)
| Raise (e : exn).

Arguments Ok {A} a.
Arguments Raise {A} e.

(** What a request carries, and what the detection model returns. *)

Record FileStorage : Type := {
  filename : string;
  stream : string
}.

(** A detection box after the conversions [int(box.cls[0])] and
    [float(box.conf[0])]. *)
Record Box : Type := {
  cls : Z;
  conf : float
}.

(** One per-image result; [boxes] may be [None]. *)
Record Results : Type := {
  boxes : option (list Box)
}.

(** A loaded [YOLO] model over a file system of type [World]. *)
Record YOLO (World : Type) : Type := {
  yolo_predict :
    forall (source : string) (conf : float) (save : bool)
           (project name : string), World -> result (list Results) * World;
  names : dict Z string
}.

Arguments yolo_predict {World}.
Arguments names {World}.

(** The collaborators the handler calls into: the file system, the
    detection model, the sanitizer, [os.path] and [round]. *)
Class Host : Type := {
  World : Type;
  (** [werkzeug.utils.secure_filename] *)
  secure_filename : string -> string;
  (** [file.save(dst)] *)
  save : FileStorage -> string -> World -> result unit * World;
  (** the global [model]: [None] when loading [best.pt] failed *)
  model : option (YOLO World);
  (** [os.path.exists], [os.listdir] *)
  path_exists : string -> World -> bool;
  listdir : string -> World -> result (list string);
  (** [os.path.abspath(path)], [os.path.relpath(path, start)] *)
  abspath : string -> World -> result string;
  relpath : string -> string -> World -> result string;
  (** [app.static_folder] *)
  static_folder : string;
  (** [round(x, ndigits)] *)
  round : float -> Z -> float
}.

(** The effectful calls a request makes, in order. *)
Inductive call : Type :=
| Saved (dst : string)
| Predicted (source : string) (conf : float) (save : bool)
            (project name : string).

Section Monad.

Context {H : Host}.

Record St : Type := {
  world : World;
  calls : list call
}.

Definition M (A : Type) : Type := St -> result A * St.

Definition ret {A} (a : A) : M A := fun st => (Ok a, st).

Definition raise {A} (e : exn) : M A := fun st => (Raise e, st).

Definition bind {A B} (m : M A) (k : A -> M B) : M B :=
  fun st =>
    match m st with
    | (Ok a, st') => k a st'
    | (Raise e, st') => (Raise e, st')
    end.

(** A call that only reads the world. *)
Definition read {A} (f : World -> result A) : M A :=
  fun st => (f (world st), st).

(** A call that may change the world, recorded in [calls]. *)
Definition effect {A} (c : call) (f : World -> result A * World) : M A :=
  fun st =>
    let (r, w) := f (world st) in
    (r, {| world := w; calls := (calls st ++ [c])%list |}).

End Monad.

Notation "x <- m ;; k" := (bind m (fun x => k))
  (at level 61, m at next level, right associativity).

(* ================================================================== *)
(** ** [app.py] *)

Definition UPLOAD_FOLDER : string := "static/uploads/".
Definition RESULT_FOLDER : string := "static/results/".

(** The alert strings of [predict]. *)
Definition MINE_AHEAD : string := "⚠️ Mine ahead!".
Definition NOT_FOUND : string :=
  "Prediction completed, but annotated image not found. Showing original.".
Definition NO_OBJECTS : string := "No objects detected.".
Definition PREDICTION_FAILED : string := "Prediction failed.".

(** The suffixes tested at line 92. *)
Definition IMAGE_SUFFIXES : list string :=
  [".jpg"; ".jpeg"; ".png"; ".bmp"; ".gif"].

(** An entry of [predictions]: [{'label': ..., 'confidence': ...}]. *)
Record prediction : Type := {
  label : string;
  confidence : float
}.

(** The local variables of [predict] that the result processing sets. *)
Record locals : Type := {
  predictions : list prediction;
  class_counts : dict string Z;
  alert_message : string;
  image_to_display_path : string
}.

(** The keyword arguments of [render_template('result.html', ...)]. *)
Record context : Type := {
  ctx_predictions : list prediction;
  ctx_alert : string;
  ctx_img_path : string;
  ctx_class_counts : dict string Z
}.

(** What a view returns: a [(body, status)] pair or a rendered template. *)
Inductive response : Type :=
| Plain (body : string) (status : Z)
| Rendered (template : string) (ctx : context).

Definition status_code (r : response) : Z :=
  match r with
  | Plain _ status => status
  | Rendered _ _ => 200%Z
  end.

Section App.

Context {H : Host}.

(** [file.save(filepath)] *)
Definition file_save (file : FileStorage) (filepath : string) : M unit :=
  effect (Saved filepath) (save file filepath).

(** [model.predict(source=, conf=, save=, project=, name=)] *)
Definition model_predict (source : string) (conf : float) (save : bool)
           (project name : string) : M (list Results) :=
  match model with
  | None => raise AttributeError
  | Some m =>
      effect (Predicted source conf save project name)
             (yolo_predict m source conf save project name)
  end.

(** [model.names] *)
Definition model_names : M (dict Z string) :=
  match model with
  | None => raise AttributeError
  | Some m => ret (names m)
  end.

(** Line 75: [model.names.get(cls_id, f"Class {cls_id}")]. *)
Definition label_of (names : dict Z string) (cls_id : Z) : string :=
  pydict.get_default Z.eqb names cls_id ("Class " ++ pystr.of_int cls_id).

(** Line 80: [label.lower() == "milco" and conf > 60]. *)
Definition is_mine (label : string) (conf : float) : bool :=
  String.eqb (pystr.lower label) "milco" && (60 <? conf)%float.

(** Lines 73 to 81: the body of [for box in boxes]. *)
Definition detect (names : dict Z string) (l : locals) (box : Box) : locals :=
  let cls_id := cls box in
  let conf := (conf box * 100)%float in
  let label := label_of names cls_id in
  {| predictions :=
       (predictions l
        ++ [{| label := label; confidence := round conf 2 |}])%list;
     class_counts :=
       pydict.set String.eqb (class_counts l) label
         (pydict.get_default String.eqb (class_counts l) label 0 + 1)%Z;
     alert_message :=
       if is_mine label conf then MINE_AHEAD else alert_message l;
     image_to_display_path := image_to_display_path l |}.

(** Lines 72 to 81: the loop over the boxes. *)
Definition aggregate (names : dict Z string) (l : locals) (boxes : list Box)
  : locals :=
  fold_left (detect names) boxes l.

(** Line 92. *)
Definition is_image (file_in_dir : string) : bool :=
  pystr.endswith_any (pystr.lower file_in_dir) IMAGE_SUFFIXES.

(** Lines 91 to 97: the first image of the listing, joined to the
    directory, if there is one. *)
Fixpoint first_image (result_dir : string) (entries : list string)
  : option string :=
  match entries with
  | [] => None
  | file_in_dir :: rest =>
      if is_image file_in_dir
      then Some (posixpath.join result_dir file_in_dir)
      else first_image result_dir rest
  end.

(** Lines 87 to 99: [Some path] when [found_annotated_image] ends up
    true.  The listing is read twice, at lines 90 and 91. *)
Definition find_annotated (result_dir : string) : M (option string) :=
  dir_exists <- read (fun w => Ok (path_exists result_dir w)) ;;
  if dir_exists then
    _ <- read (listdir result_dir) ;;
    entries <- read (listdir result_dir) ;;
    ret (first_image result_dir entries)
  else ret None.

(** Lines 59 to 63: the locals before the results are looked at. *)
Definition fresh (filepath : string) : locals :=
  {| predictions := []; class_counts := []; alert_message := "";
     image_to_display_path := filepath |}.

(** [alert_message = alert] *)
Definition with_alert (l : locals) (alert : string) : locals :=
  {| predictions := predictions l;
     class_counts := class_counts l;
     alert_message := alert;
     image_to_display_path := image_to_display_path l |}.

(** [image_to_display_path = path] *)
Definition with_image (l : locals) (path : string) : locals :=
  {| predictions := predictions l;
     class_counts := class_counts l;
     alert_message := alert_message l;
     image_to_display_path := path |}.

(** Lines 94 and 102 to 105: the locals once the search is over. *)
Definition located (l : locals) (found : option string) : locals :=
  match found with
  | Some path => with_image l path
  | None => with_alert l NOT_FOUND
  end.

(** Lines 59 to 117. *)
Definition process_results (results : list Results)
           (filepath result_dir : string) : M locals :=
  let l := fresh filepath in
  match results with
  | r :: _ =>
      match boxes r with
      | Some boxes =>
          if (0 <? List.length boxes)%nat then
            names <- model_names ;;
            let l := aggregate names l boxes in
            found <- find_annotated result_dir ;;
            ret (located l found)
          else ret (with_alert l NO_OBJECTS)
      | None => ret (with_alert l NO_OBJECTS)
      end
  | [] => ret (with_alert l PREDICTION_FAILED)
  end.

(** [rel.replace("\\", "/")] *)
Definition slashes (rel : string) : string := pystr.replace "\" "/" rel.

(** Lines 126 to 137, the body of the outer [try]: its outcome, and the
    binding of [abs_static_folder_path] when it stops. *)
Definition resolve_first (image_to_display_path : string) (w : World)
  : result string * option string :=
  match abspath image_to_display_path w with
  | Raise e => (Raise e, None)
  | Ok abs_image_to_display_path =>
      match abspath static_folder w with
      | Raise e => (Raise e, None)
      | Ok abs_static_folder_path =>
          match relpath abs_image_to_display_path abs_static_folder_path w with
          | Raise e => (Raise e, Some abs_static_folder_path)
          | Ok rel_path_from_static =>
              (Ok (slashes rel_path_from_static), Some abs_static_folder_path)
          end
      end
  end.

(** Lines 147 to 149, the body of the inner [try]. *)
Definition resolve_original (filepath : string)
           (abs_static_folder_path : option string) (w : World)
  : result string :=
  match abspath filepath w with
  | Raise e => Raise e
  | Ok abs_original_filepath =>
      match abs_static_folder_path with
      | None => Raise UnboundLocalError
      | Some abs_static_folder_path =>
          match relpath abs_original_filepath abs_static_folder_path w with
          | Raise e => Raise e
          | Ok rel_original_path => Ok (slashes rel_original_path)
          end
      end
  end.

Definition DEFAULT_IMAGE : string := "uploads/default_image.jpg".

(** Lines 124 to 154. *)
Definition resolve (image_to_display_path filepath : string) (w : World)
  : string :=
  match resolve_first image_to_display_path w with
  | (Ok img_path_for_html, _) => img_path_for_html
  | (Raise _, abs_static_folder_path) =>
      match resolve_original filepath abs_static_folder_path w with
      | Ok img_path_for_html => img_path_for_html
      | Raise _ => DEFAULT_IMAGE
      end
  end.

(** The resolver as a step of the handler: it reads the world and
    raises nothing. *)
Definition path_for_html (image_to_display_path filepath : string)
  : M string :=
  read (fun w => Ok (resolve image_to_display_path filepath w)).

(** [render_template('result.html', predictions=, alert=, img_path=,
    class_counts=)] *)
Definition render_result (l : locals) (img_path_for_html : string)
  : response :=
  Rendered "result.html"
    {| ctx_predictions := predictions l;
       ctx_alert := alert_message l;
       ctx_img_path := img_path_for_html;
       ctx_class_counts := class_counts l |}.

(** [result_name] of line 46, from the sanitized file name. *)
Definition result_name_of (filename : string) : string :=
  "result_" ++ fst (posixpath.splitext filename).

(** The view [predict], on [request.files]. *)
Definition predict (files : dict string FileStorage) : M response :=
  match pydict.get String.eqb files "file" with
  | None => ret (Plain "No file uploaded" 400)
  | Some file =>
      if String.eqb (filename file) "" then ret (Plain "No file selected" 400)
      else
        let filename := secure_filename (filename file) in
        let filepath := posixpath.join UPLOAD_FOLDER filename in
        _ <- file_save file filepath ;;
        let result_name := result_name_of filename in
        let result_dir := posixpath.join RESULT_FOLDER result_name in
        results <- model_predict filepath 0.25 true RESULT_FOLDER result_name ;;
        l <- process_results results filepath result_dir ;;
        img_path_for_html <- path_for_html (image_to_display_path l) filepath ;;
        ret (render_result l img_path_for_html)
  end.

(** Lines 41, 42, 46 and 47: the paths derived from the upload. *)
Definition filepath_of (file : FileStorage) : string :=
  posixpath.join UPLOAD_FOLDER (secure_filename (filename file)).

Definition result_name_for (file : FileStorage) : string :=
  result_name_of (secure_filename (filename file)).

Definition result_dir_of (file : FileStorage) : string :=
  posixpath.join RESULT_FOLDER (result_name_for file).

(** The entry line 77 appends for a box. *)
Definition prediction_of (names : dict Z string) (box : Box) : prediction :=
  {| label := label_of names (cls box);
     confidence := round (conf box * 100)%float 2 |}.

(** A [(body, status)] answer, as opposed to a page or an exception. *)
Definition is_plain (r : result response) : bool :=
  match r with
  | Ok (Plain _ _) => true
  | _ => false
  end.

(** The request carries the upload [file]; storing it succeeds and the
    loaded model [m] answers [results], which leaves the state [st']. *)
Definition answered (files : dict string FileStorage) (st : St)
           (file : FileStorage) (m : YOLO World) (results : list Results)
           (st' : St) : Prop :=
  pydict.get String.eqb files "file" = Some file /\
  filename file <> "" /\
  model = Some m /\
  exists w1,
    save file (filepath_of file) (world st) = (Ok tt, w1) /\
    yolo_predict m (filepath_of file) 0.25 true RESULT_FOLDER
                 (result_name_for file) w1 = (Ok results, world st') /\
    calls st' =
      (calls st ++ [Saved (filepath_of file);
                    Predicted (filepath_of file) 0.25 true RESULT_FOLDER
                              (result_name_for file)])%list.

(** The results directory holds no annotated image in the world [w]:
    it is missing, or none of its entries is an image. *)
Definition no_annotated_image (result_dir : string) (w : World) : Prop :=
  path_exists result_dir w = false \/
  exists entries,
    listdir result_dir w = Ok entries /\
    forallb (fun file_in_dir => negb (is_image file_in_dir)) entries = true.

(** The results directory can be searched in the world [w]: it is
    missing, or listing it succeeds. *)
Definition searchable (result_dir : string) (w : World) : Prop :=
  path_exists result_dir w = false \/
  exists entries, listdir result_dir w = Ok entries.

End App.

(* ================================================================== *)
(** ** A reference host

    A POSIX host with a small file system and a canned model, on which
    the handler can be run. *)

Module refhost.

(** The working directory ([None] once it has been removed), the
    directories with their listings, and the files written. *)
Record disk : Type := {
  cwd : option string;
  dirs : dict string (list string);
  files : list string
}.

Definition write (file : FileStorage) (dst : string) (d : disk)
  : result unit * disk :=
  if pystr.endswith dst "/" then (Raise (OSError "EISDIR"), d)
  else (Ok tt, {| cwd := cwd d; dirs := dirs d;
                  files := (files d ++ [dst])%list |}).

Definition exists_ (path : string) (d : disk) : bool :=
  match pydict.get String.eqb (dirs d) path with
  | Some _ => true
  | None => existsb (String.eqb path) (files d)
  end.

(** [os.listdir]: a plain file is not a directory, a missing path is no
    entry. *)
Definition scandir (path : string) (d : disk) : result (list string) :=
  match pydict.get String.eqb (dirs d) path with
  | Some entries => Ok entries
  | None =>
      if existsb (String.eqb path) (files d) then Raise (OSError "ENOTDIR")
      else Raise (OSError "ENOENT")
  end.

(** [os.getcwd()] fails in a removed directory. *)
Definition absolute (path : string) (d : disk) : result string :=
  match cwd d with
  | Some here => Ok (posixpath.abspath here path)
  | None =>
      if posixpath.startswith_sep path then Ok (posixpath.normpath path)
      else Raise (OSError "ENOENT")
  end.

Definition relative (path start : string) (d : disk) : result string :=
  if String.eqb path "" then Raise ValueError
  else
    match cwd d with
    | Some here =>
        match posixpath.relpath here path start with
        | Some rel => Ok rel
        | None => Raise ValueError
        end
    | None =>
        if posixpath.startswith_sep path && posixpath.startswith_sep start
        then match posixpath.relpath "/" path start with
             | Some rel => Ok rel
             | None => Raise ValueError
             end
        else Raise (OSError "ENOENT")
    end.

(** A model that answers [results] and, when [annotated] is given,
    leaves these entries in the directory [project/name]. *)
Definition canned (results : list Results) (annotated : option (list string))
           (names : dict Z string) : YOLO disk :=
  {| yolo_predict := fun source conf save project name d =>
       (Ok results,
        match annotated with
        | Some entries =>
            {| cwd := cwd d;
               dirs := pydict.set String.eqb (dirs d)
                         (posixpath.join project name) entries;
               files := files d |}
        | None => d
        end);
     names := names |}.

Local Open Scope float_scope.

Definition two52 : float := 4503599627370496.

(** C [round]: to the nearest integer, halves away from zero. *)
Definition c_round (y : float) : float :=
  let a := abs y in
  if a <? two52 then
    let r := a + two52 - two52 in
    let f := if a <? r then r - 1 else r in
    let z := if 0.5 <=? a - f then f + 1 else f in
    if y <? 0 then - z else z
  else y.

Fixpoint pow10 (n : nat) : float :=
  match n with
  | O => 1
  | S n' => 10 * pow10 n'
  end.

(** [round(x, ndigits)] for [0 <= ndigits <= 22], as the portable
    [double_round] of floatobject.c computes it: scale, round to the
    nearest integer with ties to even, scale back.  A build with
    correctly rounded conversions can differ from it in the last digit
    when the scaled product is inexact. *)
Definition double_round (x : float) (ndigits : Z) : float :=
  let pow1 := pow10 (Z.to_nat ndigits) in
  let y := x * pow1 * 1 in
  if negb (is_finite y) then x
  else
    let z := c_round y in
    let z := if abs (y - z) =? 0.5 then 2 * c_round (y / 2) else z in
    z / 1 / pow1.

Definition host (filesystem_model : option (YOLO disk)) : Host :=
  {| World := disk;
     secure_filename := werkzeug.secure_filename werkzeug.ascii_ignore;
     save := write;
     model := filesystem_model;
     path_exists := exists_;
     listdir := scandir;
     abspath := absolute;
     relpath := relative;
     static_folder := "/srv/app/static";
     round := double_round |}.

(** The state in which a request arrives. *)
Definition boot : disk :=
  {| cwd := Some "/srv/app";
     dirs := [("static/uploads/", []); ("static/results/", [])];
     files := [] |}.

Definition start (h : Host) (w : @World h) : @St h :=
  {| world := w; calls := [] |}.

(** [request.files] of an upload named [name]. *)
Definition upload (name : string) : dict string FileStorage :=
  [("file", {| filename := name; stream := "" |})].

Definition NAMES : dict Z string := [(0%Z, "MILCO"); (1%Z, "NOMBO")].

End refhost.

(** Requests and models to run the handler on. *)

Module demo.
Import refhost.

Local Open Scope float_scope.

Definition mine : Box := {| cls := 0; conf := 0.75 |}.
Definition faint_mine : Box := {| cls := 0; conf := 0.5 |}.
Definition wreck : Box := {| cls := 1; conf := 0.3125 |}.
Definition unnamed : Box := {| cls := 7; conf := 0.90625 |}.

Definition detections : list Results :=
  [{| boxes := Some [mine; wreck; unnamed; faint_mine] |}].

(** The model leaves an annotated image, only a folder, or nothing. *)
Definition annotating : YOLO disk :=
  canned detections (Some ["labels"; "My_ship.JPG"]) NAMES.
Definition unannotated : YOLO disk :=
  canned detections (Some ["labels"; "notes.txt"]) NAMES.
Definition dirless : YOLO disk := canned detections None NAMES.

(** The model finds nothing: an empty list, or no list at all. *)
Definition blind : YOLO disk := canned [{| boxes := Some [] |}] None NAMES.
Definition vague : YOLO disk := canned [{| boxes := None |}] None NAMES.

Definition ship : FileStorage :=
  {| filename := "../My ship.jpg"; stream := "JFIF" |}.
Definition dots : FileStorage := {| filename := ".."; stream := "JFIF" |}.
Definition nameless : FileStorage := {| filename := ""; stream := "" |}.

(** The state in which the request reaches [host (Some m)]. *)
Definition arrival (m : YOLO disk) : @St (host (Some m)) :=
  start (host (Some m)) boot.

(** The state in which [host (Some m)] has answered the upload [file]. *)
Definition departure (m : YOLO disk) (file : FileStorage)
  : @St (host (Some m)) :=
  snd (@predict (host (Some m)) [("file", file)] (arrival m)).

End demo.

(* ================================================================== *)
(** ** Start-up, and what further properties are stated with *)

(** Lines 21 to 26: the global [model] is the loaded model, or [None]
    when [YOLO(MODEL_PATH)] raised. *)
Definition load_model {World : Type} (loaded : result (YOLO World))
  : option (YOLO World) :=
  match loaded with
  | Ok model => Some model
  | Raise _ => None
  end.

(** The number of listed predictions that carry the label [name]. *)
Definition count_label (name : string) (listed : list prediction) : nat :=
  List.length (List.filter (fun p => String.eqb (label p) name) listed).

(** The counts agree with the predictions, label by label. *)
Definition counted (l : locals) : Prop :=
  NoDup (List.map fst (class_counts l)) /\
  forall name,
    pydict.get String.eqb (class_counts l) name
    = match count_label name (predictions l) with
      | O => None
      | n => Some (Z.of_nat n)
      end.

(** [path] holds no backslash. *)
Definition no_backslash (path : string) : bool :=
  pystr.all (fun c => negb (Ascii.eqb c "\")) path.

(** [path] holds no path separator. *)
Definition no_separator (path : string) : bool :=
  pystr.all (fun c => negb (Ascii.eqb c posixpath.sep)) path.

(** The request carries an upload with a non-empty raw filename. *)
Definition valid_upload (files : dict string FileStorage)
           (file : FileStorage) : Prop :=
  pydict.get String.eqb files "file" = Some file /\ filename file <> "".

(** The request carries no upload, or one with an empty raw filename. *)
Definition invalid_upload (files : dict string FileStorage) : Prop :=
  pydict.get String.eqb files "file" = None \/
  exists file,
    pydict.get String.eqb files "file" = Some file /\ filename file = "".

Module demo_more.
Import refhost demo.

(** A model whose [predict] raises. *)
Definition broken : YOLO disk :=
  {| yolo_predict := fun source conf save project name d =>
       (Raise (ModelError "corrupt image"), d);
     names := NAMES |}.

(** A disk on which the results directory of [ship] is a plain file. *)
Definition clobbered : disk :=
  {| cwd := Some "/srv/app";
     dirs := [("static/uploads/", []); ("static/results/", [])];
     files := ["static/results/result_My_ship"] |}.

(** A disk whose working directory has been removed. *)
Definition adrift : disk :=
  {| cwd := None; dirs := dirs boot; files := [] |}.

(** No result at all. *)
Definition mute : YOLO disk := canned [] None NAMES.

(** A model that answers [detections], writes nothing, and leaves the
    process in a working directory that has been removed. *)
Definition uprooting : YOLO disk :=
  {| yolo_predict := fun source conf save project name d =>
       (Ok detections, {| cwd := None; dirs := dirs d; files := files d |});
     names := NAMES |}.

End demo_more.

(* ================================================================== *)
(** ** Facts about the string primitives *)

Module pystr_facts.
Import pystr.

Lemma filter_all p s : all p s = true -> filter p s = s.
Proof.
  induction s as [|c r IH]; simpl; [reflexivity|].
  intros Hall. apply andb_true_iff in Hall as [Hc Hr].
  rewrite Hc, (IH Hr). reflexivity.
Qed.

Lemma all_filter p s : all p (filter p s) = true.
Proof.
  induction s as [|c r IH]; simpl; [reflexivity|].
  destruct (p c) eqn:Hc; simpl; [rewrite Hc|]; exact IH.
Qed.

Lemma all_weaken (p q : ascii -> bool) s :
  (forall c, p c = true -> q c = true) -> all p s = true -> all q s = true.
Proof.
  intros Hpq. induction s as [|c r IH]; simpl; [reflexivity|].
  intros Hall. apply andb_true_iff in Hall as [Hc Hr].
  rewrite (Hpq c Hc), (IH Hr). reflexivity.
Qed.

Lemma all_lstrip p q s : all p s = true -> all p (lstrip q s) = true.
Proof.
  induction s as [|c r IH]; simpl; [reflexivity|].
  intros Hall. destruct (q c); [|exact Hall].
  apply andb_true_iff in Hall as [_ Hr]. exact (IH Hr).
Qed.

Lemma all_rstrip p q s : all p s = true -> all p (rstrip q s) = true.
Proof.
  induction s as [|c r IH]; simpl; [reflexivity|].
  intros Hall. apply andb_true_iff in Hall as [Hc Hr].
  specialize (IH Hr). destruct (rstrip q r) as [|d r'].
  - destruct (q c); simpl; [reflexivity|]. rewrite Hc. reflexivity.
  - change (all p (String c (String d r'))) with (p c && all p (String d r')).
    rewrite Hc, IH. reflexivity.
Qed.

Lemma replace_absent a b s :
  all (fun c => negb (Ascii.eqb c a)) s = true -> replace a b s = s.
Proof.
  unfold replace. induction s as [|c r IH]; simpl; [reflexivity|].
  intros Hall. apply andb_true_iff in Hall as [Hc Hr].
  apply negb_true_iff in Hc. rewrite Hc, (IH Hr). reflexivity.
Qed.

Lemma append_empty s : s ++ "" = s.
Proof. induction s as [|c r IH]; simpl; [|rewrite IH]; reflexivity. Qed.

Lemma append_assoc s t u : (s ++ t) ++ u = s ++ (t ++ u).
Proof. induction s as [|c r IH]; simpl; [|rewrite IH]; reflexivity. Qed.

(** A string without white space is a single word. *)
Lemma split_from_word word s :
  all (fun c => negb (is_space c)) s = true ->
  split_from word s = flush (word ++ s).
Proof.
  revert word. induction s as [|c r IH]; simpl; intros word Hall.
  - rewrite append_empty. reflexivity.
  - apply andb_true_iff in Hall as [Hc Hr]. apply negb_true_iff in Hc.
    rewrite Hc, (IH _ Hr), append_assoc. reflexivity.
Qed.

Lemma join_flush sep s : join sep (flush s) = s.
Proof. destruct s; reflexivity. Qed.

(** The two strips do not undo each other. *)
Lemma rstrip_idem p s : rstrip p (rstrip p s) = rstrip p s.
Proof.
  induction s as [|c r IH]; simpl; [reflexivity|].
  destruct (rstrip p r) as [|d r'] eqn:Hr.
  - destruct (p c) eqn:Hc; simpl; [reflexivity|]. rewrite Hc. reflexivity.
  - change (rstrip p (String c (String d r'))) with
      (match rstrip p (String d r') with
       | EmptyString => if p c then EmptyString else String c EmptyString
       | r'' => String c r''
       end).
    rewrite IH. reflexivity.
Qed.

Lemma lstrip_head p s :
  match lstrip p s with
  | EmptyString => True
  | String c _ => p c = false
  end.
Proof.
  induction s as [|c r IH]; simpl; [exact I|].
  destruct (p c) eqn:Hc; [exact IH | exact Hc].
Qed.

Lemma lstrip_rstrip p s :
  match s with EmptyString => True | String c _ => p c = false end ->
  lstrip p (rstrip p s) = rstrip p s.
Proof.
  destruct s as [|c r]; simpl; [reflexivity|]. intros Hc.
  destruct (rstrip p r); simpl; rewrite ?Hc; simpl; rewrite ?Hc; reflexivity.
Qed.

Lemma strip_idem p s : strip p (strip p s) = strip p s.
Proof.
  unfold strip.
  rewrite (lstrip_rstrip p (lstrip p s) (lstrip_head p s)).
  apply rstrip_idem.
Qed.

Lemma all_strip p q s : all p s = true -> all p (strip q s) = true.
Proof. intros Hall. apply all_rstrip, all_lstrip, Hall. Qed.

End pystr_facts.

(* ================================================================== *)
(** ** Facts about [secure_filename] *)

Module werkzeug_facts.
Import werkzeug.

Ltac each_char c :=
  destruct c as [[] [] [] [] [] [] [] []]; vm_compute; congruence.

Lemma safe_is_ascii c : safe_char c = true -> pystr.is_ascii c = true.
Proof. each_char c. Qed.

Lemma safe_not_sep c : safe_char c = true -> negb (Ascii.eqb c "/") = true.
Proof. each_char c. Qed.

Lemma safe_not_space c : safe_char c = true -> negb (pystr.is_space c) = true.
Proof. each_char c. Qed.

(** What [secure_filename] returns is made of safe characters. *)
Lemma secure_filename_safe nfkd s :
  pystr.all safe_char (secure_filename nfkd s) = true.
Proof.
  unfold secure_filename.
  apply pystr_facts.all_strip, pystr_facts.all_filter.
Qed.

(** A sanitized name is never an absolute path. *)
Lemma secure_filename_relative nfkd s :
  posixpath.startswith_sep (secure_filename nfkd s) = false.
Proof.
  pose proof (secure_filename_safe nfkd s) as Hsafe.
  destruct (secure_filename nfkd s) as [|c r]; [reflexivity|].
  cbn in Hsafe. apply andb_true_iff in Hsafe as [Hc _].
  apply negb_true_iff. exact (safe_not_sep c Hc).
Qed.

(** On a stripped string of safe characters, only the fold can act. *)
Lemma secure_filename_fixed nfkd t :
  nfkd t = t ->
  pystr.all safe_char t = true ->
  pystr.strip dot_or_underscore t = t ->
  secure_filename nfkd t = t.
Proof.
  intros Hfold Hsafe Hstrip. unfold secure_filename. rewrite Hfold.
  rewrite pystr_facts.replace_absent
    by exact (pystr_facts.all_weaken _ _ _ safe_not_sep Hsafe).
  unfold pystr.split.
  rewrite pystr_facts.split_from_word
    by exact (pystr_facts.all_weaken _ _ _ safe_not_space Hsafe).
  simpl String.append. rewrite pystr_facts.join_flush.
  rewrite (pystr_facts.filter_all _ _ Hsafe). exact Hstrip.
Qed.

(** C8. Filename sanitization is idempotent: sanitizing a filename twice
    yields the same result as sanitizing it once.  The ASCII fold is any
    function that leaves ASCII strings unchanged, as NFKD normalisation
    followed by the ASCII encoding does. *)
Theorem secure_filename_idempotent (nfkd_ascii : string -> string)
  (Hfold : forall s, pystr.isascii s = true -> nfkd_ascii s = s)
  (filename : string) :
  secure_filename nfkd_ascii (secure_filename nfkd_ascii filename)
  = secure_filename nfkd_ascii filename.
Proof.
  pose proof (secure_filename_safe nfkd_ascii filename) as Hsafe.
  apply secure_filename_fixed.
  - apply Hfold. exact (pystr_facts.all_weaken _ _ _ safe_is_ascii Hsafe).
  - exact Hsafe.
  - unfold secure_filename. apply pystr_facts.strip_idem.
Qed.

Lemma ascii_ignore_fixes_ascii s :
  pystr.isascii s = true -> ascii_ignore s = s.
Proof. apply pystr_facts.filter_all. Qed.

Lemma secure_filename_idempotent_witness :
  (forall s, pystr.isascii s = true -> ascii_ignore s = s) /\
  secure_filename ascii_ignore
    (secure_filename ascii_ignore "../My cool ship_.JPG")
  = secure_filename ascii_ignore "../My cool ship_.JPG".
Proof.
  split.
  - exact ascii_ignore_fixes_ascii.
  - exact (secure_filename_idempotent ascii_ignore ascii_ignore_fixes_ascii
             "../My cool ship_.JPG").
Defined.

End werkzeug_facts.

(* ================================================================== *)
(** ** Facts about the handler *)

Section AppFacts.

Context {H : Host}.

(** *** The monad *)

Lemma bind_ok {A B} (m : M A) (k : A -> M B) st a st' :
  m st = (Ok a, st') -> bind m k st = k a st'.
Proof. unfold bind. intros ->. reflexivity. Qed.

Lemma bind_raise {A B} (m : M A) (k : A -> M B) st e st' :
  m st = (Raise e, st') -> bind m k st = (Raise e, st').
Proof. unfold bind. intros ->. reflexivity. Qed.

(** *** The aggregation loop *)

Lemma sum_values_count (counts : dict string Z) label :
  sum_values
    (pydict.set String.eqb counts label
       (pydict.get_default String.eqb counts label 0 + 1)%Z)
  = (sum_values counts + 1)%Z.
Proof.
  unfold sum_values, pydict.get_default.
  induction counts as [|[k v] rest IH]; simpl; [reflexivity|].
  destruct (String.eqb k label); simpl; [lia|].
  fold (@pydict.values string Z) in *. rewrite IH. lia.
Qed.

Lemma aggregate_predictions names boxes : forall l,
  predictions (aggregate names l boxes)
  = (predictions l ++ List.map (prediction_of names) boxes)%list.
Proof.
  unfold aggregate.
  induction boxes as [|box rest IH]; intros l; simpl.
  - rewrite app_nil_r. reflexivity.
  - rewrite IH. simpl. rewrite <- app_assoc. reflexivity.
Qed.

Lemma aggregate_counts names boxes : forall l,
  sum_values (class_counts (aggregate names l boxes))
  = (sum_values (class_counts l) + Z.of_nat (List.length boxes))%Z.
Proof.
  unfold aggregate.
  induction boxes as [|box rest IH]; intros l.
  - simpl. lia.
  - cbn [fold_left List.length]. rewrite IH.
    cbn [detect class_counts]. rewrite sum_values_count. lia.
Qed.

Lemma aggregate_image names boxes : forall l,
  image_to_display_path (aggregate names l boxes) = image_to_display_path l.
Proof.
  unfold aggregate.
  induction boxes as [|box rest IH]; intros l; simpl; [reflexivity|].
  rewrite IH. reflexivity.
Qed.

(** *** The search for the annotated image *)

Lemma first_image_none result_dir entries :
  forallb (fun file_in_dir => negb (is_image file_in_dir)) entries = true ->
  first_image result_dir entries = None.
Proof.
  induction entries as [|file_in_dir rest IH]; simpl; [reflexivity|].
  intros Hno. apply andb_true_iff in Hno as [Hhead Hrest].
  apply negb_true_iff in Hhead. rewrite Hhead. exact (IH Hrest).
Qed.

Lemma find_annotated_missing result_dir st :
  path_exists result_dir (world st) = false ->
  find_annotated result_dir st = (Ok None, st).
Proof.
  intros Hmissing. unfold find_annotated, bind, read. rewrite Hmissing.
  reflexivity.
Qed.

Lemma find_annotated_listed result_dir st entries :
  listdir result_dir (world st) = Ok entries ->
  find_annotated result_dir st
  = (Ok (if path_exists result_dir (world st)
         then first_image result_dir entries else None), st).
Proof.
  intros Hlist. unfold find_annotated, bind, read.
  destruct (path_exists result_dir (world st)); [|reflexivity].
  rewrite Hlist. reflexivity.
Qed.

Lemma find_annotated_none result_dir st :
  no_annotated_image result_dir (world st) ->
  find_annotated result_dir st = (Ok None, st).
Proof.
  intros [Hmissing | (entries & Hlist & Hno)].
  - exact (find_annotated_missing _ _ Hmissing).
  - rewrite (find_annotated_listed _ _ _ Hlist), (first_image_none _ _ Hno).
    destruct (path_exists result_dir (world st)); reflexivity.
Qed.

Lemma find_annotated_searchable result_dir st :
  searchable result_dir (world st) ->
  exists found, find_annotated result_dir st = (Ok found, st).
Proof.
  intros [Hmissing | (entries & Hlist)].
  - exists None. exact (find_annotated_missing _ _ Hmissing).
  - eexists. exact (find_annotated_listed _ _ _ Hlist).
Qed.

(** *** The branches of the result processing *)

Lemma process_detections m r rest bs filepath result_dir st found :
  model = Some m ->
  boxes r = Some bs ->
  (1 <= List.length bs)%nat ->
  find_annotated result_dir st = (Ok found, st) ->
  process_results (r :: rest) filepath result_dir st
  = (Ok (located (aggregate (names m) (fresh filepath) bs) found), st).
Proof.
  intros Hmodel Hboxes Hlen Hfound. unfold process_results.
  rewrite Hboxes.
  destruct (Nat.ltb_spec 0 (List.length bs)) as [_|]; [|lia].
  unfold model_names. rewrite Hmodel.
  unfold bind at 1. unfold ret at 1.
  rewrite (bind_ok _ _ _ _ _ Hfound). reflexivity.
Qed.

Lemma process_no_detections r rest filepath result_dir st :
  boxes r = None \/ boxes r = Some [] ->
  process_results (r :: rest) filepath result_dir st
  = (Ok (with_alert (fresh filepath) NO_OBJECTS), st).
Proof.
  intros [Hboxes | Hboxes]; unfold process_results; rewrite Hboxes;
    reflexivity.
Qed.

(** *** The handler up to the answer of the model *)

Lemma predict_answered files st file m results st' :
  answered files st file m results st' ->
  predict files st
  = (l <- process_results results (filepath_of file) (result_dir_of file) ;;
     img_path_for_html <-
       path_for_html (image_to_display_path l) (filepath_of file) ;;
     ret (render_result l img_path_for_html)) st'.
Proof.
  intros (Hfile & Hname & Hmodel & w1 & Hsave & Hpredict & Hcalls).
  unfold predict. rewrite Hfile.
  apply String.eqb_neq in Hname. rewrite Hname.
  fold (filepath_of file) (result_name_for file) (result_dir_of file).
  set (st1 := {| world := w1;
                 calls := (calls st ++ [Saved (filepath_of file)])%list |}).
  assert (Hsaved : file_save file (filepath_of file) st = (Ok tt, st1)).
  { unfold file_save, effect. rewrite Hsave. reflexivity. }
  rewrite (bind_ok _ _ _ _ _ Hsaved).
  assert (Hasked : model_predict (filepath_of file) 0.25 true RESULT_FOLDER
                     (result_name_for file) st1
                   = (Ok results, st')).
  { unfold model_predict, effect, st1. rewrite Hmodel. cbn [world calls].
    rewrite Hpredict. destruct st' as [w' c']. cbn [world calls] in *.
    rewrite Hcalls, <- app_assoc. reflexivity. }
  rewrite (bind_ok _ _ _ _ _ Hasked). reflexivity.
Qed.

(** Once the results are processed, the page is rendered. *)
Lemma predict_rendered files st file m results st' l :
  answered files st file m results st' ->
  process_results results (filepath_of file) (result_dir_of file) st'
  = (Ok l, st') ->
  predict files st
  = (Ok (render_result l
           (resolve (image_to_display_path l) (filepath_of file) (world st'))),
     st').
Proof.
  intros Hanswered Hprocessed.
  rewrite (predict_answered _ _ _ _ _ _ Hanswered).
  rewrite (bind_ok _ _ _ _ _ Hprocessed). reflexivity.
Qed.

(** *** The result processing only reads the world *)

Lemma find_annotated_reads result_dir st :
  snd (find_annotated result_dir st) = st.
Proof.
  unfold find_annotated, bind, read, ret. cbn.
  destruct (path_exists result_dir (world st)); [|reflexivity].
  destruct (listdir result_dir (world st)); reflexivity.
Qed.

Lemma process_results_reads results filepath result_dir st :
  snd (process_results results filepath result_dir st) = st.
Proof.
  unfold process_results.
  destruct results as [|r rest]; [reflexivity|].
  destruct (boxes r) as [bs|]; [|reflexivity].
  destruct (0 <? List.length bs)%nat; [|reflexivity].
  unfold model_names. destruct model as [m|]; [|reflexivity].
  unfold bind at 1. unfold ret at 1. unfold bind.
  pose proof (find_annotated_reads result_dir st) as Hreads.
  destruct (find_annotated result_dir st) as [[found|e] st1];
    cbn in Hreads; subst st1; reflexivity.
Qed.

(** Without a results directory the upload stays on display, whatever
    the model answered. *)
Lemma process_results_missing m results filepath result_dir st :
  model = Some m ->
  path_exists result_dir (world st) = false ->
  exists l,
    process_results results filepath result_dir st = (Ok l, st) /\
    image_to_display_path l = filepath.
Proof.
  intros Hmodel Hmissing. unfold process_results.
  destruct results as [|r rest]; [eexists; split; reflexivity|].
  destruct (boxes r) as [bs|]; [|eexists; split; reflexivity].
  destruct (0 <? List.length bs)%nat; [|eexists; split; reflexivity].
  unfold model_names. rewrite Hmodel.
  unfold bind at 1. unfold ret at 1.
  rewrite (bind_ok _ _ _ _ _ (find_annotated_missing _ _ Hmissing)).
  eexists; split; [reflexivity|]. cbn. apply aggregate_image.
Qed.

(** *** Past the validation of the upload *)

Lemma predict_stores files st file :
  pydict.get String.eqb files "file" = Some file ->
  filename file <> "" ->
  is_plain (fst (predict files st)) = false /\
  exists later,
    calls (snd (predict files st))
    = (calls st ++ Saved (filepath_of file) :: later)%list.
Proof.
  intros Hfile Hname.
  remember (predict files st) as run eqn:Hrun.
  unfold predict in Hrun. rewrite Hfile in Hrun.
  apply String.eqb_neq in Hname. rewrite Hname in Hrun.
  fold (filepath_of file) (result_name_for file) (result_dir_of file) in Hrun.
  unfold bind at 1 in Hrun. unfold file_save, effect in Hrun.
  destruct (save file (filepath_of file) (world st)) as [[[]|e] w1];
    [|subst run; split; [reflexivity | exists []; reflexivity]].
  unfold bind at 1 in Hrun. unfold model_predict in Hrun.
  destruct model as [m|];
    [|subst run; split; [reflexivity | exists []; reflexivity]].
  unfold effect in Hrun. cbn [world calls] in Hrun.
  destruct (yolo_predict m (filepath_of file) 0.25 true RESULT_FOLDER
              (result_name_for file) w1) as [[results|e] w2];
    [|subst run; split;
      [reflexivity | eexists; cbn; rewrite <- app_assoc; reflexivity]].
  unfold bind at 1 in Hrun.
  pose proof (process_results_reads results (filepath_of file)
                (result_dir_of file)
                {| world := w2;
                   calls := ((calls st ++ [Saved (filepath_of file)]) ++
                             [Predicted (filepath_of file) 0.25 true
                                RESULT_FOLDER (result_name_for file)])%list |})
    as Hreads.
  destruct (process_results results (filepath_of file) (result_dir_of file) _)
    as [[l|e] st3]; cbn in Hreads; subst st3; subst run;
    (split; [reflexivity | eexists; cbn; rewrite <- app_assoc; reflexivity]).
Qed.

(** The upload path is outside the results folder, whatever the
    sanitized name is. *)
Lemma upload_outside_results name :
  prefix RESULT_FOLDER (posixpath.join UPLOAD_FOLDER name) = false.
Proof.
  unfold posixpath.join.
  destruct (posixpath.startswith_sep name) eqn:Habsolute; [|reflexivity].
  destruct name as [|c r]; [discriminate|].
  cbn in Habsolute. apply Ascii.eqb_eq in Habsolute. subst c. reflexivity.
Qed.

(** With the upload on display, a failure of the first computation ends
    in the placeholder. *)
Lemma resolve_upload_failed filepath w e :
  fst (resolve_first filepath w) = Raise e ->
  resolve filepath filepath w = DEFAULT_IMAGE.
Proof.
  unfold resolve, resolve_first, resolve_original.
  destruct (abspath filepath w) as [abs_original|]; [|reflexivity].
  destruct (abspath static_folder w) as [abs_static|]; [|reflexivity].
  destruct (relpath abs_original abs_static w) eqn:Hrel; cbn [fst].
  - discriminate.
  - rewrite Hrel. reflexivity.
Qed.

End AppFacts.

(* ================================================================== *)
(** ** The properties of the specification *)

Section Claims.

Context {H : Host}.

(** C1. For a model result whose first per-image result holds N
    detection boxes, N at least 1, the page is rendered with exactly N
    predictions, the i-th prediction is the entry built from the i-th
    box, and the values of the class counts sum to N. *)
Theorem predictions_match_detections
  files st file m results st' r rest bs :
  answered files st file m results st' ->
  results = r :: rest ->
  boxes r = Some bs ->
  (1 <= List.length bs)%nat ->
  searchable (result_dir_of file) (world st') ->
  exists ctx,
    predict files st = (Ok (Rendered "result.html" ctx), st') /\
    List.length (ctx_predictions ctx) = List.length bs /\
    ctx_predictions ctx = List.map (prediction_of (names m)) bs /\
    sum_values (ctx_class_counts ctx) = Z.of_nat (List.length bs).
Proof.
  intros Hanswered -> Hboxes Hlen Hsearch.
  destruct (find_annotated_searchable _ st' Hsearch) as [found Hfound].
  pose proof Hanswered as (_ & _ & Hmodel & _).
  pose proof (process_detections m r rest bs (filepath_of file) _ st' found
                Hmodel Hboxes Hlen Hfound) as Hprocessed.
  rewrite (predict_rendered _ _ _ _ _ _ _ Hanswered Hprocessed).
  eexists. split; [reflexivity|].
  assert (Hpreds : predictions
                     (located (aggregate (names m) (fresh (filepath_of file)) bs)
                              found)
                   = List.map (prediction_of (names m)) bs).
  { destruct found; cbn; rewrite aggregate_predictions; reflexivity. }
  assert (Hcounts : sum_values
                      (class_counts
                         (located (aggregate (names m) (fresh (filepath_of file)) bs)
                                  found))
                    = Z.of_nat (List.length bs)).
  { destruct found; unfold located, with_image, with_alert;
      cbn [class_counts]; rewrite aggregate_counts; reflexivity. }
  cbn [render_result ctx_predictions ctx_class_counts].
  rewrite Hpreds, Hcounts, length_map. repeat split.
Qed.

(** C2. For a detection whose label is "milco" in any case, the loop body
    sets the alert to the mine warning exactly when the scaled
    confidence exceeds 60: a confidence of 75 sets it, one of 50 leaves
    it alone, and a later qualifying detection writes the same message
    again, so the alert after the loop is the warning when some
    detection qualifies and is untouched otherwise. *)
Theorem milco_alert (names : dict Z string) (cls_id : Z) :
  pystr.lower (label_of names cls_id) = "milco" ->
  (forall l c,
      alert_message (detect names l {| cls := cls_id; conf := c |})
      = if (60 <? c * 100)%float then MINE_AHEAD else alert_message l) /\
  (forall l c,
      alert_message l <> MINE_AHEAD ->
      alert_message (detect names l {| cls := cls_id; conf := c |}) = MINE_AHEAD
      <-> (60 <? c * 100)%float = true) /\
  (forall l,
      alert_message (detect names l {| cls := cls_id; conf := 0.75 |})
      = MINE_AHEAD) /\
  (forall l,
      alert_message (detect names l {| cls := cls_id; conf := 0.5 |})
      = alert_message l) /\
  (forall l c,
      alert_message l = MINE_AHEAD ->
      (60 <? c * 100)%float = true ->
      alert_message (detect names l {| cls := cls_id; conf := c |})
      = alert_message l) /\
  (forall bs l,
      alert_message (aggregate names l bs)
      = if existsb (fun box => is_mine (label_of names (cls box))
                                       (conf box * 100)%float) bs
        then MINE_AHEAD else alert_message l).
Proof.
  intros Hmilco.
  assert (Hstep : forall l c,
             alert_message (detect names l {| cls := cls_id; conf := c |})
             = if (60 <? c * 100)%float then MINE_AHEAD else alert_message l).
  { intros l c. cbn [detect alert_message cls conf]. unfold is_mine.
    rewrite Hmilco. reflexivity. }
  split; [exact Hstep|]. split; [|split; [|split; [|split]]].
  - intros l c Hnot. rewrite Hstep.
    destruct (60 <? c * 100)%float; split; intros Heq;
      try reflexivity; try discriminate; contradiction.
  - intros l. rewrite Hstep. reflexivity.
  - intros l. rewrite Hstep. reflexivity.
  - intros l c Hset Hover. rewrite Hstep, Hover, Hset. reflexivity.
  - unfold aggregate. induction bs as [|box more IH]; intros l.
    + reflexivity.
    + cbn [fold_left existsb]. rewrite IH.
      cbn [detect alert_message].
      destruct (is_mine (label_of names (cls box)) (conf box * 100)%float);
        cbn [orb]; [|reflexivity].
      destruct (existsb _ more); reflexivity.
Qed.

(** C3. When there are detections and the results directory holds no
    file ending, in any case, in .jpg, .jpeg, .png, .bmp or .gif, the
    original upload stays on display and the alert is the
    image-not-found message alone, whatever alert the detections had
    set. *)
Theorem missing_image_overwrites_alert
  files st file m results st' r rest bs :
  answered files st file m results st' ->
  results = r :: rest ->
  boxes r = Some bs ->
  (1 <= List.length bs)%nat ->
  no_annotated_image (result_dir_of file) (world st') ->
  exists l,
    process_results results (filepath_of file) (result_dir_of file) st'
    = (Ok l, st') /\
    image_to_display_path l = filepath_of file /\
    alert_message l
    = "Prediction completed, but annotated image not found. Showing original." /\
    predict files st
    = (Ok (render_result l
             (resolve (filepath_of file) (filepath_of file) (world st'))),
       st').
Proof.
  intros Hanswered -> Hboxes Hlen Hnone.
  pose proof Hanswered as (_ & _ & Hmodel & _).
  pose proof (process_detections m r rest bs (filepath_of file) _ st' None
                Hmodel Hboxes Hlen (find_annotated_none _ _ Hnone))
    as Hprocessed.
  eexists. split; [exact Hprocessed|].
  assert (Himage : image_to_display_path
                     (located (aggregate (names m) (fresh (filepath_of file)) bs)
                              None)
                   = filepath_of file).
  { cbn. apply aggregate_image. }
  split; [exact Himage|]. split; [reflexivity|].
  rewrite (predict_rendered _ _ _ _ _ _ _ Hanswered Hprocessed), Himage.
  reflexivity.
Qed.

(** C4. For a model result whose first per-image result has an empty
    detection list, the alert is exactly "No objects detected.", the
    predictions and the class counts stay empty, and the path on
    display is the one resolved from the original upload path. *)
Theorem empty_detections
  files st file m results st' r rest :
  answered files st file m results st' ->
  results = r :: rest ->
  boxes r = Some [] ->
  predict files st
  = (Ok (Rendered "result.html"
           {| ctx_predictions := [];
              ctx_alert := "No objects detected.";
              ctx_img_path :=
                resolve (filepath_of file) (filepath_of file) (world st');
              ctx_class_counts := [] |}),
     st').
Proof.
  intros Hanswered -> Hboxes.
  exact (predict_rendered _ _ _ _ _ _ _ Hanswered
           (process_no_detections r rest _ _ st' (or_intror Hboxes))).
Qed.

(** C5. A request without a field named "file", or whose file has an
    empty filename, is answered with status 400; the state is left as
    it was: nothing is stored and the model is not called. *)
Theorem rejected_upload files st :
  pydict.get String.eqb files "file" = None \/
  (exists file,
      pydict.get String.eqb files "file" = Some file /\ filename file = "") ->
  exists body,
    predict files st = (Ok (Plain body 400), st) /\
    status_code (Plain body 400) = 400%Z /\
    calls (snd (predict files st)) = calls st /\
    world (snd (predict files st)) = world st.
Proof.
  intros [Hnone | (file & Hfile & Hempty)]; unfold predict.
  - rewrite Hnone. eexists. repeat split.
  - rewrite Hfile, Hempty. eexists. repeat split.
Qed.

(** C6. When the results directory does not exist, the image on display
    is the original upload and never a file of the results directory: the
    path kept for display is the upload path, which lies outside the
    results folder, and the page carries what the resolver makes of that
    path alone, its path relative to the static root when [abspath] and
    [relpath] succeed on it, and the placeholder when they raise. *)
Theorem missing_results_directory
  files st file m results st' :
  answered files st file m results st' ->
  path_exists (result_dir_of file) (world st') = false ->
  exists l,
    process_results results (filepath_of file) (result_dir_of file) st'
    = (Ok l, st') /\
    image_to_display_path l = filepath_of file /\
    prefix RESULT_FOLDER (image_to_display_path l) = false /\
    predict files st
    = (Ok (render_result l
             (resolve (filepath_of file) (filepath_of file) (world st'))),
       st') /\
    (forall abs_original abs_static rel,
        abspath (filepath_of file) (world st') = Ok abs_original ->
        abspath static_folder (world st') = Ok abs_static ->
        relpath abs_original abs_static (world st') = Ok rel ->
        resolve (filepath_of file) (filepath_of file) (world st')
        = slashes rel) /\
    (forall e,
        fst (resolve_first (filepath_of file) (world st')) = Raise e ->
        resolve (filepath_of file) (filepath_of file) (world st')
        = "uploads/default_image.jpg").
Proof.
  intros Hanswered Hmissing.
  pose proof Hanswered as (_ & _ & Hmodel & _).
  destruct (process_results_missing m results (filepath_of file) _ st'
              Hmodel Hmissing) as (l & Hprocessed & Himage).
  exists l. split; [exact Hprocessed|]. split; [exact Himage|].
  split; [|split; [|split]].
  - rewrite Himage. apply upload_outside_results.
  - rewrite (predict_rendered _ _ _ _ _ _ _ Hanswered Hprocessed), Himage.
    reflexivity.
  - intros abs_original abs_static rel Habs Hstatic Hrel.
    unfold resolve, resolve_first. rewrite Habs, Hstatic, Hrel. reflexivity.
  - intros e Hfailed. exact (resolve_upload_failed _ _ e Hfailed).
Qed.

(** C7. The path resolver never fails the request.  For every artifact
    path, and however [abspath] and [relpath] behave, it returns a path:
    the one computed from the artifact, or after a first failure the one
    computed the same way from the original upload path, or after a
    second failure the placeholder. *)
Theorem resolver_never_fails image_to_display_path filepath st :
  exists img_path_for_html,
    path_for_html image_to_display_path filepath st
    = (Ok img_path_for_html, st) /\
    (fst (resolve_first image_to_display_path (world st))
     = Ok img_path_for_html
     \/
     (exists e bound,
         resolve_first image_to_display_path (world st) = (Raise e, bound) /\
         resolve_original filepath bound (world st) = Ok img_path_for_html)
     \/
     (exists e bound e2,
         resolve_first image_to_display_path (world st) = (Raise e, bound) /\
         resolve_original filepath bound (world st) = Raise e2 /\
         img_path_for_html = "uploads/default_image.jpg")).
Proof.
  unfold path_for_html, read, resolve.
  destruct (resolve_first image_to_display_path (world st))
    as [[p|e] bound] eqn:Hfirst.
  - exists p. split; [reflexivity|]. left. reflexivity.
  - destruct (resolve_original filepath bound (world st)) as [p|e2] eqn:Hsecond.
    + exists p. split; [reflexivity|]. right. left.
      exists e, bound. split; [reflexivity | exact Hsecond].
    + exists DEFAULT_IMAGE. split; [reflexivity|]. right. right.
      exists e, bound, e2. repeat split. exact Hsecond.
Qed.

(** C9. When the first result's boxes are [None], the handler answers
    as it does for an empty list of boxes: the alert is "No objects
    detected.", predictions and class counts are empty and the original
    upload is displayed; the two cases are processed identically. *)
Theorem none_boxes_as_empty
  files st file m results st' r rest :
  answered files st file m results st' ->
  results = r :: rest ->
  boxes r = None ->
  predict files st
  = (Ok (Rendered "result.html"
           {| ctx_predictions := [];
              ctx_alert := "No objects detected.";
              ctx_img_path :=
                resolve (filepath_of file) (filepath_of file) (world st');
              ctx_class_counts := [] |}),
     st') /\
  process_results results (filepath_of file) (result_dir_of file)
  = process_results ({| boxes := Some [] |} :: rest)
                    (filepath_of file) (result_dir_of file).
Proof.
  intros Hanswered -> Hboxes. split.
  - exact (predict_rendered _ _ _ _ _ _ _ Hanswered
             (process_no_detections r rest _ _ st' (or_introl Hboxes))).
  - unfold process_results. rewrite Hboxes. reflexivity.
Qed.

(** C10. Only the raw filename is tested for emptiness: a request whose
    raw filename is not empty but is sanitized to the empty string is
    not answered with a 400 page, and its first effect is to store the
    upload at the uploads folder joined with the empty string, which is
    the uploads folder itself; the sanitizer of Werkzeug maps ".." to
    the empty string. *)
Theorem empty_sanitized_filename files st file :
  pydict.get String.eqb files "file" = Some file ->
  filename file <> "" ->
  secure_filename (filename file) = "" ->
  is_plain (fst (predict files st)) = false /\
  (exists later,
      calls (snd (predict files st))
      = (calls st ++ Saved (posixpath.join UPLOAD_FOLDER "") :: later)%list) /\
  posixpath.join UPLOAD_FOLDER "" = "static/uploads/" /\
  (forall nfkd_ascii,
      (forall s, pystr.isascii s = true -> nfkd_ascii s = s) ->
      werkzeug.secure_filename nfkd_ascii ".." = "").
Proof.
  intros Hfile Hname Hempty.
  destruct (predict_stores files st file Hfile Hname) as [Hplain Hcalls].
  unfold filepath_of in Hcalls. rewrite Hempty in Hcalls.
  split; [exact Hplain|]. split; [exact Hcalls|]. split; [reflexivity|].
  intros nfkd_ascii Hfold. unfold werkzeug.secure_filename.
  rewrite (Hfold ".." eq_refl). reflexivity.
Qed.

End Claims.

(* ================================================================== *)
(** ** The properties on the reference host *)

Module on_refhost.
Import refhost demo.

Ltac run := vm_compute; reflexivity.

Lemma predictions_match_detections_witness :
  @answered (host (Some annotating)) [("file", ship)] (arrival annotating)
            ship annotating detections (departure annotating ship) /\
  (1 <= List.length [mine; wreck; unnamed; faint_mine])%nat /\
  @searchable (host (Some annotating))
              (@result_dir_of (host (Some annotating)) ship)
              (world (departure annotating ship)) /\
  exists ctx,
    @predict (host (Some annotating)) [("file", ship)] (arrival annotating)
    = (Ok (Rendered "result.html" ctx), departure annotating ship) /\
    List.length (ctx_predictions ctx) = 4%nat /\
    ctx_predictions ctx
    = List.map (@prediction_of (host (Some annotating)) NAMES)
               [mine; wreck; unnamed; faint_mine] /\
    sum_values (ctx_class_counts ctx) = 4%Z.
Proof.
  assert (Hanswered :
            @answered (host (Some annotating)) [("file", ship)]
                      (arrival annotating) ship annotating detections
                      (departure annotating ship)).
  { repeat split; [discriminate|]. eexists. repeat split. }
  assert (Hsearch :
            @searchable (host (Some annotating))
                        (@result_dir_of (host (Some annotating)) ship)
                        (world (departure annotating ship))).
  { right. eexists. run. }
  assert (Hlen : (1 <= List.length [mine; wreck; unnamed; faint_mine])%nat).
  { cbn. lia. }
  split; [exact Hanswered|]. split; [exact Hlen|]. split; [exact Hsearch|].
  exact (@predictions_match_detections (host (Some annotating)) _ _ _ _ _ _
           _ [] _ Hanswered eq_refl eq_refl Hlen Hsearch).
Defined.

Lemma milco_alert_witness :
  pystr.lower (label_of NAMES 0) = "milco" /\
  alert_message
    (@detect (host None) NAMES (fresh "static/uploads/My_ship.jpg") mine)
  = MINE_AHEAD /\
  alert_message
    (@detect (host None) NAMES (fresh "static/uploads/My_ship.jpg") faint_mine)
  = "" /\
  alert_message
    (@aggregate (host None) NAMES (fresh "static/uploads/My_ship.jpg")
                [wreck; mine; faint_mine; mine])
  = MINE_AHEAD.
Proof.
  assert (Hmilco : pystr.lower (label_of NAMES 0) = "milco").
  { reflexivity. }
  destruct (@milco_alert (host None) NAMES 0 Hmilco)
    as (_ & _ & Hset & Hkept & _ & Hloop).
  split; [exact Hmilco|]. split; [|split].
  - exact (Hset (fresh "static/uploads/My_ship.jpg")).
  - exact (Hkept (fresh "static/uploads/My_ship.jpg")).
  - exact (Hloop [wreck; mine; faint_mine; mine]
                 (fresh "static/uploads/My_ship.jpg")).
Defined.

Lemma missing_image_overwrites_alert_witness :
  @answered (host (Some unannotated)) [("file", ship)] (arrival unannotated)
            ship unannotated detections (departure unannotated ship) /\
  (1 <= List.length [mine; wreck; unnamed; faint_mine])%nat /\
  @no_annotated_image (host (Some unannotated))
                      (@result_dir_of (host (Some unannotated)) ship)
                      (world (departure unannotated ship)) /\
  alert_message (@aggregate (host (Some unannotated)) NAMES
                            (fresh "static/uploads/My_ship.jpg")
                            [mine; wreck; unnamed; faint_mine])
  = MINE_AHEAD /\
  exists l,
    @process_results (host (Some unannotated)) detections
                     "static/uploads/My_ship.jpg"
                     "static/results/result_My_ship"
                     (departure unannotated ship)
    = (Ok l, departure unannotated ship) /\
    image_to_display_path l = "static/uploads/My_ship.jpg" /\
    alert_message l
    = "Prediction completed, but annotated image not found. Showing original." /\
    @predict (host (Some unannotated)) [("file", ship)] (arrival unannotated)
    = (Ok (render_result l "uploads/My_ship.jpg"),
       departure unannotated ship).
Proof.
  assert (Hanswered :
            @answered (host (Some unannotated)) [("file", ship)]
                      (arrival unannotated) ship unannotated detections
                      (departure unannotated ship)).
  { repeat split; [discriminate|]. eexists. repeat split. }
  assert (Hnone :
            @no_annotated_image (host (Some unannotated))
                                (@result_dir_of (host (Some unannotated)) ship)
                                (world (departure unannotated ship))).
  { right. exists ["labels"; "notes.txt"]. split; run. }
  assert (Hlen : (1 <= List.length [mine; wreck; unnamed; faint_mine])%nat).
  { cbn. lia. }
  split; [exact Hanswered|]. split; [exact Hlen|]. split; [exact Hnone|].
  split; [run|].
  exact (@missing_image_overwrites_alert (host (Some unannotated)) _ _ _ _ _
           _ _ [] _ Hanswered eq_refl eq_refl Hlen Hnone).
Defined.

Lemma empty_detections_witness :
  @answered (host (Some blind)) [("file", ship)] (arrival blind)
            ship blind [{| boxes := Some [] |}] (departure blind ship) /\
  @predict (host (Some blind)) [("file", ship)] (arrival blind)
  = (Ok (Rendered "result.html"
           {| ctx_predictions := [];
              ctx_alert := "No objects detected.";
              ctx_img_path := "uploads/My_ship.jpg";
              ctx_class_counts := [] |}),
     departure blind ship).
Proof.
  assert (Hanswered :
            @answered (host (Some blind)) [("file", ship)] (arrival blind)
                      ship blind [{| boxes := Some [] |}]
                      (departure blind ship)).
  { repeat split; [discriminate|]. eexists. repeat split. }
  split; [exact Hanswered|].
  exact (@empty_detections (host (Some blind)) _ _ _ _ _ _ _ []
           Hanswered eq_refl eq_refl).
Defined.

Lemma rejected_upload_witness :
  (pydict.get String.eqb [("photo", ship); ("file", nameless)] "file" = None \/
   exists file,
     pydict.get String.eqb [("photo", ship); ("file", nameless)] "file"
     = Some file /\ filename file = "") /\
  exists body,
    @predict (host (Some annotating)) [("photo", ship); ("file", nameless)]
             (arrival annotating)
    = (Ok (Plain body 400), arrival annotating) /\
    status_code (Plain body 400) = 400%Z /\
    calls (snd (@predict (host (Some annotating))
                         [("photo", ship); ("file", nameless)]
                         (arrival annotating))) = [] /\
    world (snd (@predict (host (Some annotating))
                         [("photo", ship); ("file", nameless)]
                         (arrival annotating))) = boot.
Proof.
  assert (Hbad :
            pydict.get String.eqb [("photo", ship); ("file", nameless)] "file"
            = None \/
            exists file,
              pydict.get String.eqb [("photo", ship); ("file", nameless)] "file"
              = Some file /\ filename file = "").
  { right. exists nameless. split; reflexivity. }
  split; [exact Hbad|].
  exact (@rejected_upload (host (Some annotating)) _ (arrival annotating) Hbad).
Defined.

Lemma missing_results_directory_witness :
  @answered (host (Some dirless)) [("file", ship)] (arrival dirless)
            ship dirless detections (departure dirless ship) /\
  @path_exists (host (Some dirless))
               (@result_dir_of (host (Some dirless)) ship)
               (world (departure dirless ship)) = false /\
  exists l,
    @process_results (host (Some dirless)) detections
                     "static/uploads/My_ship.jpg"
                     "static/results/result_My_ship"
                     (departure dirless ship)
    = (Ok l, departure dirless ship) /\
    image_to_display_path l = "static/uploads/My_ship.jpg" /\
    @predict (host (Some dirless)) [("file", ship)] (arrival dirless)
    = (Ok (render_result l "uploads/My_ship.jpg"), departure dirless ship) /\
    prefix RESULT_FOLDER (image_to_display_path l) = false.
Proof.
  assert (Hanswered :
            @answered (host (Some dirless)) [("file", ship)] (arrival dirless)
                      ship dirless detections (departure dirless ship)).
  { repeat split; [discriminate|]. eexists. repeat split. }
  assert (Hmissing :
            @path_exists (host (Some dirless))
                         (@result_dir_of (host (Some dirless)) ship)
                         (world (departure dirless ship)) = false).
  { run. }
  split; [exact Hanswered|]. split; [exact Hmissing|].
  destruct (@missing_results_directory (host (Some dirless)) _ _ _ _ _ _
              Hanswered Hmissing)
    as (l & Hprocessed & Himage & Hunder & Hpage & _ & _).
  exists l. split; [exact Hprocessed|]. split; [exact Himage|].
  split; [exact Hpage | exact Hunder].
Defined.

(** The claim as first stated fails when the paths cannot be resolved.
    The upload is stored as static/uploads/My_ship.jpg under /srv/app,
    whose static root is /srv/app/static, so its path relative to the
    static root is uploads/My_ship.jpg; the model leaves no results
    directory and a removed working directory, and the page carries the
    placeholder instead. *)
Lemma missing_results_directory_counterexample :
  @answered (host (Some demo_more.uprooting)) [("file", ship)]
            (arrival demo_more.uprooting) ship demo_more.uprooting detections
            (departure demo_more.uprooting ship) /\
  @path_exists (host (Some demo_more.uprooting))
               (@result_dir_of (host (Some demo_more.uprooting)) ship)
               (world (departure demo_more.uprooting ship)) = false /\
  @filepath_of (host (Some demo_more.uprooting)) ship
  = "static/uploads/My_ship.jpg" /\
  posixpath.relpath "/srv/app" "static/uploads/My_ship.jpg" "/srv/app/static"
  = Some "uploads/My_ship.jpg" /\
  exists ctx,
    @predict (host (Some demo_more.uprooting)) [("file", ship)]
             (arrival demo_more.uprooting)
    = (Ok (Rendered "result.html" ctx), departure demo_more.uprooting ship) /\
    ctx_img_path ctx = "uploads/default_image.jpg" /\
    ctx_img_path ctx <> "uploads/My_ship.jpg".
Proof.
  split; [repeat split; [discriminate|]; eexists; repeat split|].
  split; [run|]. split; [run|]. split; [run|].
  eexists. split; [run|]. split; [reflexivity | discriminate].
Qed.

Lemma none_boxes_as_empty_witness :
  @answered (host (Some vague)) [("file", ship)] (arrival vague)
            ship vague [{| boxes := None |}] (departure vague ship) /\
  @predict (host (Some vague)) [("file", ship)] (arrival vague)
  = (Ok (Rendered "result.html"
           {| ctx_predictions := [];
              ctx_alert := "No objects detected.";
              ctx_img_path := "uploads/My_ship.jpg";
              ctx_class_counts := [] |}),
     departure vague ship).
Proof.
  assert (Hanswered :
            @answered (host (Some vague)) [("file", ship)] (arrival vague)
                      ship vague [{| boxes := None |}]
                      (departure vague ship)).
  { repeat split; [discriminate|]. eexists. repeat split. }
  split; [exact Hanswered|].
  destruct (@none_boxes_as_empty (host (Some vague)) _ _ _ _ _ _ _ []
              Hanswered eq_refl eq_refl) as [Hpage _].
  exact Hpage.
Defined.

Lemma empty_sanitized_filename_witness :
  pydict.get String.eqb [("file", dots)] "file" = Some dots /\
  filename dots <> "" /\
  @secure_filename (host (Some annotating)) (filename dots) = "" /\
  is_plain (fst (@predict (host (Some annotating)) [("file", dots)]
                          (arrival annotating))) = false /\
  exists later,
    calls (snd (@predict (host (Some annotating)) [("file", dots)]
                         (arrival annotating)))
    = ([] ++ Saved "static/uploads/" :: later)%list.
Proof.
  assert (Hname : filename dots <> "").
  { discriminate. }
  split; [reflexivity|]. split; [exact Hname|]. split; [reflexivity|].
  destruct (@empty_sanitized_filename (host (Some annotating))
              [("file", dots)] (arrival annotating) dots
              eq_refl Hname eq_refl) as (Hplain & Hcalls & _).
  split; [exact Hplain | exact Hcalls].
Defined.

(** The tiers of the path resolver: with the working directory in place
    the first computation succeeds; once it has been removed, [abspath]
    fails on both relative paths and the placeholder is returned. *)
Example resolve_annotated :
  @resolve (host None) "static/results/result_My_ship/My_ship.JPG"
           "static/uploads/My_ship.jpg" boot
  = "results/result_My_ship/My_ship.JPG".
Proof. run. Qed.

Example resolve_placeholder :
  @resolve (host None) "static/results/result_My_ship/My_ship.JPG"
           "static/uploads/My_ship.jpg"
           {| cwd := None; dirs := dirs boot; files := [] |}
  = "uploads/default_image.jpg".
Proof. run. Qed.

End on_refhost.

(* ================================================================== *)
(** ** Further facts about the handler *)

Section MoreFacts.

Context {H : Host}.

(** The alert after the loop. *)
Lemma aggregate_alert names boxes : forall l,
  alert_message (aggregate names l boxes)
  = if existsb (fun box => is_mine (label_of names (cls box))
                                   (conf box * 100)%float) boxes
    then MINE_AHEAD else alert_message l.
Proof.
  unfold aggregate. induction boxes as [|box more IH]; intros l.
  - reflexivity.
  - cbn [fold_left existsb]. rewrite IH. cbn [detect alert_message].
    destruct (is_mine (label_of names (cls box)) (conf box * 100)%float);
      cbn [orb]; [|reflexivity].
    destruct (existsb _ more); reflexivity.
Qed.

(** What the result processing can return. *)
Lemma process_results_shape results filepath result_dir st l st' :
  process_results results filepath result_dir st = (Ok l, st') ->
  st' = st /\
  ((results = [] /\ l = with_alert (fresh filepath) PREDICTION_FAILED)
   \/
   (exists r rest,
       results = r :: rest /\
       (boxes r = None \/ boxes r = Some []) /\
       l = with_alert (fresh filepath) NO_OBJECTS)
   \/
   (exists r rest bs m found,
       results = r :: rest /\
       boxes r = Some bs /\
       (1 <= List.length bs)%nat /\
       model = Some m /\
       find_annotated result_dir st = (Ok found, st) /\
       l = located (aggregate (names m) (fresh filepath) bs) found)).
Proof.
  intros Hrun.
  pose proof (process_results_reads results filepath result_dir st) as Hreads.
  rewrite Hrun in Hreads. cbn in Hreads. subst st'. split; [reflexivity|].
  unfold process_results in Hrun.
  destruct results as [|r rest].
  { left. injection Hrun as <-. split; reflexivity. }
  destruct (boxes r) as [bs|] eqn:Hboxes.
  2:{ right. left. exists r, rest. injection Hrun as <-. auto. }
  destruct (Nat.ltb_spec 0 (List.length bs)) as [Hlen|Hlen].
  2:{ right. left. exists r, rest. injection Hrun as <-.
      destruct bs; [auto | cbn in Hlen; lia]. }
  right. right. unfold model_names in Hrun.
  destruct model as [m|]; [|discriminate].
  unfold bind at 1 in Hrun. unfold ret at 1 in Hrun. unfold bind in Hrun.
  pose proof (find_annotated_reads result_dir st) as Hsame.
  destruct (find_annotated result_dir st) as [[found|e] st1] eqn:Hfind;
    [|discriminate].
  cbn in Hsame. subst st1. injection Hrun as <-.
  exists r, rest, bs, m, found. repeat split; auto.
Qed.

(** A rendered page comes from an answered request. *)
Lemma predict_rendered_inv files st template ctx st' :
  predict files st = (Ok (Rendered template ctx), st') ->
  exists file m results l,
    answered files st file m results st' /\
    process_results results (filepath_of file) (result_dir_of file) st'
    = (Ok l, st') /\
    Rendered template ctx
    = render_result l
        (resolve (image_to_display_path l) (filepath_of file) (world st')).
Proof.
  intros Hrun. unfold predict in Hrun.
  destruct (pydict.get String.eqb files "file") as [file|] eqn:Hfile;
    [|discriminate].
  destruct (String.eqb_spec (filename file) "") as [|Hname]; [discriminate|].
  fold (filepath_of file) (result_name_for file) (result_dir_of file) in Hrun.
  unfold bind at 1 in Hrun. unfold file_save, effect in Hrun.
  destruct (save file (filepath_of file) (world st)) as [[[]|e] w1] eqn:Hsave;
    [|discriminate].
  unfold bind at 1 in Hrun. unfold model_predict in Hrun.
  destruct model as [m|] eqn:Hmodel; [|discriminate].
  unfold effect in Hrun. cbn [world calls] in Hrun.
  destruct (yolo_predict m (filepath_of file) 0.25 true RESULT_FOLDER
              (result_name_for file) w1) as [[results|e] w2] eqn:Hpredict;
    [|discriminate].
  unfold bind at 1 in Hrun.
  match type of Hrun with
  | context [process_results _ _ _ ?s] => set (st2 := s) in *
  end.
  pose proof (process_results_reads results (filepath_of file)
                (result_dir_of file) st2) as Hreads.
  destruct (process_results results (filepath_of file) (result_dir_of file) st2)
    as [[l|e] st3] eqn:Hprocessed; [|discriminate].
  cbn in Hreads. subst st3.
  unfold bind, path_for_html, read, ret in Hrun.
  injection Hrun as Htemplate Hctx Hstate. subst st' template ctx.
  exists file, m, results, l. split; [|split].
  - split; [exact Hfile|]. split; [exact Hname|]. split; [exact Hmodel|].
    exists w1. split; [exact Hsave|]. split; [exact Hpredict|].
    unfold st2. cbn [calls]. rewrite <- app_assoc. reflexivity.
  - exact Hprocessed.
  - reflexivity.
Qed.

(** *** The class counts as a dictionary *)

Lemma get_set (counts : dict string Z) k v k' :
  pydict.get String.eqb (pydict.set String.eqb counts k v) k'
  = if String.eqb k k' then Some v else pydict.get String.eqb counts k'.
Proof.
  induction counts as [|[k0 v0] rest IH]; cbn [pydict.set pydict.get].
  - reflexivity.
  - destruct (String.eqb_spec k0 k) as [->|Hk0]; cbn [pydict.get].
    + destruct (String.eqb k k'); reflexivity.
    + rewrite IH. destruct (String.eqb_spec k0 k') as [->|Hk0']; [|reflexivity].
      apply String.eqb_neq in Hk0. rewrite String.eqb_sym, Hk0. reflexivity.
Qed.

Lemma keys_set (counts : dict string Z) k v key :
  In key (List.map fst (pydict.set String.eqb counts k v)) ->
  In key (List.map fst counts) \/ key = k.
Proof.
  induction counts as [|[k0 v0] rest IH]; cbn [pydict.set List.map fst In].
  - intros [<-|[]]. right. reflexivity.
  - destruct (String.eqb_spec k0 k) as [->|Hk0]; cbn [List.map fst In].
    + intros [<-|Hin]; auto.
    + intros [<-|Hin]; [auto|]. destruct (IH Hin); auto.
Qed.

Lemma keys_set_nodup (counts : dict string Z) k v :
  NoDup (List.map fst counts) ->
  NoDup (List.map fst (pydict.set String.eqb counts k v)).
Proof.
  induction counts as [|[k0 v0] rest IH]; cbn [pydict.set List.map fst].
  - intros _. constructor; [intros [] | constructor].
  - intros Hnodup. inversion Hnodup as [|? ? Hfresh Hrest]; subst.
    destruct (String.eqb_spec k0 k) as [->|Hk0]; cbn [List.map fst].
    + constructor; assumption.
    + constructor; [|exact (IH Hrest)].
      intros Hin. destruct (keys_set _ _ _ _ Hin) as [Hold|Heq].
      * exact (Hfresh Hold).
      * exact (Hk0 Heq).
Qed.

Lemma count_label_app name listed p :
  count_label name (listed ++ [p])%list
  = (count_label name listed + if String.eqb (label p) name then 1 else 0)%nat.
Proof.
  unfold count_label. rewrite filter_app, length_app. cbn [List.filter].
  destruct (String.eqb (label p) name); reflexivity.
Qed.

Lemma counted_fresh filepath : counted (fresh filepath).
Proof. split; [constructor | reflexivity]. Qed.

Lemma counted_detect names l box : counted l -> counted (detect names l box).
Proof.
  intros [Hnodup Hget]. split.
  - cbn [detect class_counts]. apply keys_set_nodup, Hnodup.
  - intros name. cbn [detect class_counts predictions].
    rewrite get_set, count_label_app. cbn [label].
    unfold pydict.get_default.
    destruct (String.eqb_spec (label_of names (cls box)) name) as [<-|Hother].
    + rewrite Hget.
      destruct (count_label (label_of names (cls box)) (predictions l)) as [|n].
      * reflexivity.
      * replace (S n + 1)%nat with (S (S n)) by lia. f_equal. lia.
    + rewrite Hget, Nat.add_0_r. reflexivity.
Qed.

Lemma counted_aggregate names boxes : forall l,
  counted l -> counted (aggregate names l boxes).
Proof.
  unfold aggregate. induction boxes as [|box more IH]; intros l Hl.
  - exact Hl.
  - cbn [fold_left]. apply IH, counted_detect, Hl.
Qed.

(** Whatever is rendered was counted. *)
Lemma process_results_counted results filepath result_dir st l st' :
  process_results results filepath result_dir st = (Ok l, st') ->
  counted l.
Proof.
  intros Hrun.
  destruct (process_results_shape _ _ _ _ _ _ Hrun)
    as (_ & [(_ & ->) | [(r & rest & _ & _ & ->)
                        | (r & rest & bs & m & found & _ & _ & _ & _ & _ & ->)]]).
  - exact (counted_fresh filepath).
  - exact (counted_fresh filepath).
  - pose proof (counted_aggregate (names m) bs _ (counted_fresh filepath))
      as Hcounted.
    destruct found; exact Hcounted.
Qed.

(** *** The resolved path *)

Lemma slashes_no_backslash rel : no_backslash (slashes rel) = true.
Proof.
  unfold no_backslash, slashes, pystr.replace.
  induction rel as [|c r IH]; cbn [pystr.map pystr.all]; [reflexivity|].
  rewrite IH, andb_true_r.
  destruct (Ascii.eqb c "\") eqn:Hc; [reflexivity|]. rewrite Hc. reflexivity.
Qed.

Lemma resolve_no_backslash image_to_display_path filepath w :
  no_backslash (resolve image_to_display_path filepath w) = true.
Proof.
  unfold resolve, resolve_first, resolve_original.
  destruct (abspath image_to_display_path w);
    [destruct (abspath static_folder w);
     [destruct (relpath _ _ w); [apply slashes_no_backslash|]|]|];
    destruct (abspath filepath w);
    try reflexivity;
    destruct (relpath _ _ w);
    try reflexivity; apply slashes_no_backslash.
Qed.

(** *** Substrings *)

Lemma all_substring p s : forall n m,
  pystr.all p s = true -> pystr.all p (substring n m s) = true.
Proof.
  induction s as [|c r IH]; intros n m Hall.
  - destruct n, m; reflexivity.
  - cbn [pystr.all] in Hall. apply andb_true_iff in Hall as [Hc Hr].
    destruct n as [|n]; destruct m as [|m]; cbn [substring pystr.all];
      try reflexivity.
    + rewrite Hc. exact (IH 0%nat m Hr).
    + exact (IH n 0%nat Hr).
    + exact (IH n (S m) Hr).
Qed.

Lemma splitext_root_all p s :
  pystr.all p s = true -> pystr.all p (fst (posixpath.splitext s)) = true.
Proof.
  intros Hall. unfold posixpath.splitext.
  destruct (_ && _); cbn [fst]; [apply all_substring|]; exact Hall.
Qed.

(** *** [rfind] and [splitext] *)

Lemma substring_prefix pre rest :
  substring 0 (String.length pre) (pre ++ rest) = pre.
Proof.
  induction pre as [|c r IH]; cbn [String.length append substring].
  - destruct rest; reflexivity.
  - rewrite IH. reflexivity.
Qed.

Lemma substring_suffix pre rest :
  substring (String.length pre) (String.length rest) (pre ++ rest) = rest.
Proof.
  induction pre as [|c r IH]; cbn [String.length append substring].
  - induction rest as [|d s IHs]; cbn [String.length substring];
      [reflexivity | rewrite IHs; reflexivity].
  - exact IH.
Qed.

Lemma length_append s t :
  String.length (s ++ t) = (String.length s + String.length t)%nat.
Proof.
  induction s as [|c r IH]; cbn [append String.length];
    [reflexivity | rewrite IH; reflexivity].
Qed.

(** [rfind] finds the last occurrence: nothing after it is [c]. *)
Lemma rfind_from_split c p : forall i,
  (0 <= i)%Z ->
  (posixpath.rfind_from i c p = (-1)%Z /\
   pystr.all (fun d => negb (Ascii.eqb d c)) p = true)
  \/
  (exists pre post,
      p = pre ++ String c post /\
      posixpath.rfind_from i c p = (i + Z.of_nat (String.length pre))%Z /\
      pystr.all (fun d => negb (Ascii.eqb d c)) post = true).
Proof.
  induction p as [|d r IH]; intros i Hi.
  - left. split; reflexivity.
  - cbn [posixpath.rfind_from].
    destruct (IH (i + 1)%Z ltac:(lia))
      as [[Hnone Hall] | (pre & post & -> & Hfound & Hpost)].
    + rewrite Hnone. cbn [Z.leb Z.compare].
      destruct (Ascii.eqb_spec d c) as [->|Hdc].
      * right. exists "", r. cbn [append String.length]. repeat split.
        -- f_equal. lia.
        -- exact Hall.
      * left. split; [reflexivity|]. cbn [pystr.all].
        apply Ascii.eqb_neq in Hdc. rewrite Hdc, Hall. reflexivity.
    + rewrite Hfound.
      destruct (Z.leb_spec 0 (i + 1 + Z.of_nat (String.length pre))); [|lia].
      right. exists (String d pre), post. repeat split.
      * cbn [String.length]. lia.
      * exact Hpost.
Qed.

(** The root and the extension of [splitext] make up the path; the
    extension is empty or begins with the only dot it holds. *)
Lemma splitext_split p :
  exists root ext,
    posixpath.splitext p = (root, ext) /\
    p = root ++ ext /\
    (ext = "" \/
     exists rest,
       ext = String "." rest /\
       pystr.all (fun d => negb (Ascii.eqb d ".")) rest = true).
Proof.
  unfold posixpath.splitext, posixpath.rfind.
  destruct (rfind_from_split "." p 0 ltac:(lia))
    as [[Hnone _] | (pre & post & Hp & Hfound & Hpost)].
  - rewrite Hnone.
    assert (Hlt : (posixpath.rfind_from 0 posixpath.sep p <? -1)%Z = false).
    { apply Z.ltb_ge.
      destruct (rfind_from_split posixpath.sep p 0 ltac:(lia))
        as [[-> _] | (? & ? & _ & -> & _)]; lia. }
    rewrite Hlt. cbn [andb]. exists p, "". repeat split.
    + symmetry. apply pystr_facts.append_empty.
    + left. reflexivity.
  - rewrite Hfound. cbn [Z.add].
    destruct (_ && _).
    + exists pre, (String "." post). rewrite Nat2Z.id. repeat split.
      * subst p. rewrite substring_prefix. f_equal.
        rewrite length_append, Nat.add_comm, Nat.add_sub.
        apply substring_suffix.
      * exact Hp.
      * right. exists post. split; [reflexivity | exact Hpost].
    + exists p, "". repeat split.
      * symmetry. apply pystr_facts.append_empty.
      * left. reflexivity.
Qed.

End MoreFacts.

(* ================================================================== *)
(** ** Further properties of the handler *)

Section Extras.

Context {H : Host}.

Lemma first_image_first result_dir before file_in_dir after :
  forallb (fun entry => negb (is_image entry)) before = true ->
  is_image file_in_dir = true ->
  first_image result_dir (before ++ file_in_dir :: after)%list
  = Some (posixpath.join result_dir file_in_dir).
Proof.
  intros Hbefore Himage.
  induction before as [|entry more IH]; cbn [app first_image].
  - rewrite Himage. reflexivity.
  - cbn [forallb] in Hbefore. apply andb_true_iff in Hbefore as [Hentry Hmore].
    apply negb_true_iff in Hentry. rewrite Hentry. exact (IH Hmore).
Qed.

(** X1. When the model answers an empty sequence of results, the page is
    rendered with the alert "Prediction failed.", no prediction, no class
    count, and the path resolved from the original upload. *)
Theorem empty_result_sequence files st file m st' :
  answered files st file m [] st' ->
  predict files st
  = (Ok (Rendered "result.html"
           {| ctx_predictions := [];
              ctx_alert := "Prediction failed.";
              ctx_img_path :=
                resolve (filepath_of file) (filepath_of file) (world st');
              ctx_class_counts := [] |}),
     st').
Proof.
  intros Hanswered.
  exact (predict_rendered _ _ _ _ _ _ _ Hanswered eq_refl).
Qed.

(** X2. When there are detections and the results directory lists an
    image, the first entry with an image suffix is displayed, joined to
    the directory, and the alert is the one the detections left: the mine
    warning when some "milco" detection exceeds 60, the empty string
    otherwise. *)
Theorem annotated_image_displayed
  files st file m results st' r rest bs before file_in_dir after :
  answered files st file m results st' ->
  results = r :: rest ->
  boxes r = Some bs ->
  (1 <= List.length bs)%nat ->
  path_exists (result_dir_of file) (world st') = true ->
  listdir (result_dir_of file) (world st')
  = Ok (before ++ file_in_dir :: after)%list ->
  forallb (fun entry => negb (is_image entry)) before = true ->
  is_image file_in_dir = true ->
  predict files st
  = (Ok (Rendered "result.html"
           {| ctx_predictions := List.map (prediction_of (names m)) bs;
              ctx_alert :=
                if existsb (fun box => is_mine (label_of (names m) (cls box))
                                               (conf box * 100)%float) bs
                then MINE_AHEAD else "";
              ctx_img_path :=
                resolve (posixpath.join (result_dir_of file) file_in_dir)
                        (filepath_of file) (world st');
              ctx_class_counts :=
                class_counts (aggregate (names m) (fresh (filepath_of file)) bs)
           |}),
     st').
Proof.
  intros Hanswered -> Hboxes Hlen Hexists Hlist Hbefore Himage.
  pose proof Hanswered as (_ & _ & Hmodel & _).
  pose proof (find_annotated_listed _ st' _ Hlist) as Hfound.
  rewrite Hexists, (first_image_first _ _ _ _ Hbefore Himage) in Hfound.
  rewrite (predict_rendered _ _ _ _ _ _ _ Hanswered
             (process_detections m r rest bs (filepath_of file) _ st' _
                Hmodel Hboxes Hlen Hfound)).
  unfold render_result, located, with_image.
  cbn [predictions class_counts alert_message image_to_display_path].
  rewrite aggregate_predictions, aggregate_alert. reflexivity.
Qed.

(** X3. The handler answers with a plain body exactly when the request has
    no "file" field or the raw filename is empty; the status of a plain
    answer is always 400 and the state is then untouched. *)
Theorem plain_answer_iff_invalid files st :
  (is_plain (fst (predict files st)) = true <-> invalid_upload files) /\
  (forall body status,
      fst (predict files st) = Ok (Plain body status) ->
      status = 400%Z /\ snd (predict files st) = st).
Proof.
  destruct (pydict.get String.eqb files "file") as [file|] eqn:Hfile.
  - destruct (String.eqb_spec (filename file) "") as [Hempty|Hname].
    + assert (Hrun : predict files st = (Ok (Plain "No file selected" 400), st)).
      { unfold predict. rewrite Hfile, Hempty. reflexivity. }
      rewrite Hrun. split.
      * split; [|reflexivity]. intros _. right. exists file. auto.
      * intros body status Heq. injection Heq as _ <-. auto.
    + destruct (predict_stores files st file Hfile Hname) as [Hplain _].
      split.
      * split.
        -- rewrite Hplain. discriminate.
        -- intros [Hnone | (other & Hother & Hempty)].
           ++ rewrite Hfile in Hnone. discriminate.
           ++ rewrite Hfile in Hother. injection Hother as <-. contradiction.
      * intros body status Heq. rewrite Heq in Hplain. discriminate.
  - assert (Hrun : predict files st = (Ok (Plain "No file uploaded" 400), st)).
    { unfold predict. rewrite Hfile. reflexivity. }
    rewrite Hrun. split.
    + split; [|reflexivity]. intros _. left. exact Hfile.
    + intros body status Heq. injection Heq as _ <-. auto.
Qed.

(** X4. Whatever the outcome, a request performs its effects in one order:
    nothing for an invalid upload; otherwise the upload is stored first,
    at the uploads folder joined with the sanitized name, and the model is
    called at most once, after that, on the stored path with confidence
    0.25, saving on, and the results folder and name the handler later
    searches.  Nothing is stored or predicted after the model call. *)
Theorem effects_in_order files st :
  (invalid_upload files /\ calls (snd (predict files st)) = calls st) \/
  (exists file,
      valid_upload files file /\
      (calls (snd (predict files st))
       = (calls st ++ [Saved (filepath_of file)])%list
       \/
       calls (snd (predict files st))
       = (calls st ++ [Saved (filepath_of file);
                       Predicted (filepath_of file) 0.25 true RESULT_FOLDER
                                 (result_name_for file)])%list)).
Proof.
  destruct (pydict.get String.eqb files "file") as [file|] eqn:Hfile.
  2:{ left. split; [left; exact Hfile|].
      unfold predict. rewrite Hfile. reflexivity. }
  destruct (String.eqb_spec (filename file) "") as [Hempty|Hname].
  { left. split; [right; exists file; auto|].
    unfold predict. rewrite Hfile, Hempty. reflexivity. }
  right. exists file. split; [split; assumption|].
  remember (predict files st) as run eqn:Hrun.
  unfold predict in Hrun. rewrite Hfile in Hrun.
  apply String.eqb_neq in Hname. rewrite Hname in Hrun.
  fold (filepath_of file) (result_name_for file) (result_dir_of file) in Hrun.
  unfold bind at 1 in Hrun. unfold file_save, effect in Hrun.
  destruct (save file (filepath_of file) (world st)) as [[[]|e] w1];
    [|subst run; left; reflexivity].
  unfold bind at 1 in Hrun. unfold model_predict in Hrun.
  destruct model as [m|]; [|subst run; left; reflexivity].
  unfold effect in Hrun. cbn [world calls] in Hrun.
  destruct (yolo_predict m (filepath_of file) 0.25 true RESULT_FOLDER
              (result_name_for file) w1) as [[results|e] w2];
    [|subst run; right; cbn; rewrite <- app_assoc; reflexivity].
  unfold bind at 1 in Hrun.
  match type of Hrun with
  | context [process_results _ _ _ ?s] => set (st2 := s) in *
  end.
  pose proof (process_results_reads results (filepath_of file)
                (result_dir_of file) st2) as Hreads.
  destruct (process_results results (filepath_of file) (result_dir_of file) st2)
    as [[l|e] st3]; cbn in Hreads; subst st3; subst run;
    right; cbn; rewrite <- app_assoc; reflexivity.
Qed.

(** X5. When loading the weights failed at start-up, so that the global
    model is [None], a valid upload is still stored and the handler then
    raises [AttributeError]: nothing is predicted and no page is
    rendered. *)
Theorem model_not_loaded files st file e w1 :
  valid_upload files file ->
  model = load_model (Raise e) ->
  save file (filepath_of file) (world st) = (Ok tt, w1) ->
  predict files st
  = (Raise AttributeError,
     {| world := w1;
        calls := (calls st ++ [Saved (filepath_of file)])%list |}).
Proof.
  intros [Hfile Hname] Hmodel Hsave. unfold predict. rewrite Hfile.
  apply String.eqb_neq in Hname. rewrite Hname.
  fold (filepath_of file) (result_name_for file) (result_dir_of file).
  unfold bind at 1. unfold file_save, effect. rewrite Hsave.
  unfold bind at 1. unfold model_predict. rewrite Hmodel. reflexivity.
Qed.

(** X6. Nothing recovers from a failure of the upload or of the model: an
    exception raised by [file.save] leaves the handler before the model is
    called, and one raised by [model.predict] leaves it before any result
    is processed, each unchanged. *)
Theorem upstream_failure_propagates files st file :
  valid_upload files file ->
  (forall e w1,
      save file (filepath_of file) (world st) = (Raise e, w1) ->
      predict files st
      = (Raise e,
         {| world := w1;
            calls := (calls st ++ [Saved (filepath_of file)])%list |})) /\
  (forall m e w1 w2,
      model = Some m ->
      save file (filepath_of file) (world st) = (Ok tt, w1) ->
      yolo_predict m (filepath_of file) 0.25 true RESULT_FOLDER
                   (result_name_for file) w1 = (Raise e, w2) ->
      predict files st
      = (Raise e,
         {| world := w2;
            calls := (calls st ++ [Saved (filepath_of file);
                                   Predicted (filepath_of file) 0.25 true
                                             RESULT_FOLDER
                                             (result_name_for file)])%list |})).
Proof.
  intros [Hfile Hname]. apply String.eqb_neq in Hname. split.
  - intros e w1 Hsave. unfold predict. rewrite Hfile, Hname.
    fold (filepath_of file).
    unfold bind at 1. unfold file_save, effect. rewrite Hsave. reflexivity.
  - intros m e w1 w2 Hmodel Hsave Hpredict. unfold predict.
    rewrite Hfile, Hname.
    fold (filepath_of file) (result_name_for file) (result_dir_of file).
    unfold bind at 1. unfold file_save, effect. rewrite Hsave.
    unfold bind at 1. unfold model_predict, effect. rewrite Hmodel.
    cbn [world calls]. rewrite Hpredict, <- app_assoc. reflexivity.
Qed.

(** X7. The search for the annotated image is not guarded: when there are
    detections and the results directory exists but listing it raises,
    the exception leaves the handler and no page is rendered. *)
Theorem listing_failure_propagates
  files st file m results st' r rest bs e :
  answered files st file m results st' ->
  results = r :: rest ->
  boxes r = Some bs ->
  (1 <= List.length bs)%nat ->
  path_exists (result_dir_of file) (world st') = true ->
  listdir (result_dir_of file) (world st') = Raise e ->
  predict files st = (Raise e, st').
Proof.
  intros Hanswered -> Hboxes Hlen Hexists Hlist.
  pose proof Hanswered as (_ & _ & Hmodel & _).
  rewrite (predict_answered _ _ _ _ _ _ Hanswered).
  assert (Hprocessed :
            process_results (r :: rest) (filepath_of file) (result_dir_of file)
                            st' = (Raise e, st')).
  { unfold process_results. rewrite Hboxes.
    destruct (Nat.ltb_spec 0 (List.length bs)) as [_|]; [|lia].
    unfold model_names. rewrite Hmodel.
    unfold bind at 1. unfold ret at 1.
    assert (Hfind : find_annotated (result_dir_of file) st' = (Raise e, st')).
    { unfold find_annotated, bind, read. rewrite Hexists, Hlist. reflexivity. }
    exact (bind_raise _ _ _ _ _ Hfind). }
  exact (bind_raise _ _ _ _ _ Hprocessed).
Qed.

(** X9. A class id that the model's name table does not map is labelled
    "Class <id>", and such a detection never sets the mine alert,
    whatever its confidence. *)
Theorem unmapped_class_never_alerts (names : dict Z string) (cls_id : Z) :
  pydict.get Z.eqb names cls_id = None ->
  label_of names cls_id = "Class " ++ pystr.of_int cls_id /\
  forall l c,
    alert_message (detect names l {| cls := cls_id; conf := c |})
    = alert_message l.
Proof.
  intros Hmissing.
  assert (Hlabel : label_of names cls_id = "Class " ++ pystr.of_int cls_id).
  { unfold label_of, pydict.get_default. rewrite Hmissing. reflexivity. }
  split; [exact Hlabel|].
  intros l c. cbn [detect alert_message cls conf]. rewrite Hlabel.
  reflexivity.
Qed.

(** X8. On every rendered page the class counts agree with the listed
    predictions label by label: a label is a key exactly when some
    prediction carries it, its count is the number of those predictions,
    and no label is listed twice. *)
Theorem counts_match_predictions files st template ctx st' :
  predict files st = (Ok (Rendered template ctx), st') ->
  NoDup (List.map fst (ctx_class_counts ctx)) /\
  forall name,
    pydict.get String.eqb (ctx_class_counts ctx) name
    = match count_label name (ctx_predictions ctx) with
      | O => None
      | n => Some (Z.of_nat n)
      end.
Proof.
  intros Hrun.
  destruct (predict_rendered_inv _ _ _ _ _ Hrun)
    as (file & m & results & l & _ & Hprocessed & Hpage).
  injection Hpage as _ ->. cbn [ctx_class_counts ctx_predictions].
  exact (process_results_counted _ _ _ _ _ _ Hprocessed).
Qed.

(** X10. Every rendered page uses the template result.html; its class
    counts sum to the number of its predictions; its alert is one of the
    five strings of the handler; and it lists no prediction exactly when
    the alert is "No objects detected." or "Prediction failed.". *)
Theorem rendered_page_invariant files st template ctx st' :
  predict files st = (Ok (Rendered template ctx), st') ->
  template = "result.html" /\
  sum_values (ctx_class_counts ctx)
  = Z.of_nat (List.length (ctx_predictions ctx)) /\
  In (ctx_alert ctx)
     [""; MINE_AHEAD; NOT_FOUND; NO_OBJECTS; PREDICTION_FAILED] /\
  (ctx_predictions ctx = [] <->
   ctx_alert ctx = NO_OBJECTS \/ ctx_alert ctx = PREDICTION_FAILED).
Proof.
  intros Hrun.
  destruct (predict_rendered_inv _ _ _ _ _ Hrun)
    as (file & m0 & results & l & _ & Hprocessed & Hpage).
  injection Hpage as -> ->. split; [reflexivity|].
  cbn [ctx_class_counts ctx_predictions ctx_alert].
  destruct (process_results_shape _ _ _ _ _ _ Hprocessed)
    as (_ & [(_ & ->) | [(r & rest & _ & _ & ->)
                        | (r & rest & bs & m & found & _ & _ & Hlen & _ & _ & ->)]]).
  - split; [reflexivity|]. split; [cbn; auto 6|].
    split; [right; reflexivity | reflexivity].
  - split; [reflexivity|]. split; [cbn; auto 6|].
    split; [left; reflexivity | reflexivity].
  - assert (Hpreds : predictions (located (aggregate (names m)
                                   (fresh (filepath_of file)) bs) found)
                     = List.map (prediction_of (names m)) bs).
    { destruct found; cbn [located with_image with_alert predictions];
        rewrite aggregate_predictions; reflexivity. }
    assert (Hcounts : class_counts (located (aggregate (names m)
                                     (fresh (filepath_of file)) bs) found)
                      = class_counts (aggregate (names m)
                                        (fresh (filepath_of file)) bs)).
    { destruct found; reflexivity. }
    assert (Halert : alert_message (located (aggregate (names m)
                                    (fresh (filepath_of file)) bs) found)
                     = "" \/
                     alert_message (located (aggregate (names m)
                                    (fresh (filepath_of file)) bs) found)
                     = MINE_AHEAD \/
                     alert_message (located (aggregate (names m)
                                    (fresh (filepath_of file)) bs) found)
                     = NOT_FOUND).
    { destruct found; cbn [located with_image with_alert alert_message];
        [|auto]. rewrite aggregate_alert.
      destruct (existsb _ bs); auto. }
    rewrite Hpreds, Hcounts, aggregate_counts, length_map.
    split; [reflexivity|]. split.
    + destruct Halert as [-> | [-> | ->]]; cbn; auto 6.
    + split.
      * intros Hnil. destruct bs; [cbn in Hlen; lia | discriminate].
      * intros Hno. exfalso.
        destruct Halert as [Ha | [Ha | Ha]], Hno as [Hb | Hb];
          rewrite Ha in Hb; discriminate.
Qed.

(** X11. The mine warning is only shown together with a prediction whose
    label is "milco" in some case: a page whose alert is the warning
    lists such a prediction. *)
Theorem mine_alert_needs_milco files st template ctx st' :
  predict files st = (Ok (Rendered template ctx), st') ->
  ctx_alert ctx = MINE_AHEAD ->
  exists p, In p (ctx_predictions ctx) /\ pystr.lower (label p) = "milco".
Proof.
  intros Hrun Halert.
  destruct (predict_rendered_inv _ _ _ _ _ Hrun)
    as (file & m0 & results & l & _ & Hprocessed & Hpage).
  injection Hpage as _ ->.
  cbn [ctx_predictions ctx_alert] in *.
  destruct (process_results_shape _ _ _ _ _ _ Hprocessed)
    as (_ & [(_ & ->) | [(r & rest & _ & _ & ->)
                        | (r & rest & bs & m & found & _ & _ & _ & _ & _ & ->)]]);
    try discriminate.
  destruct found as [path|]; [|discriminate].
  cbn [located with_image alert_message predictions] in *.
  rewrite aggregate_alert in Halert. rewrite aggregate_predictions.
  destruct (existsb _ bs) eqn:Hsome; [|discriminate].
  apply existsb_exists in Hsome as (box & Hin & Hmine).
  exists (prediction_of (names m) box). split.
  - cbn [fresh predictions app]. apply in_map, Hin.
  - unfold is_mine in Hmine. apply andb_true_iff in Hmine as [Hlabel _].
    apply String.eqb_eq in Hlabel. exact Hlabel.
Qed.

(** X12. When [abspath] raises for the artifact path or for the static
    folder, the first fallback cannot succeed, because the static folder's
    absolute path was never bound: the placeholder is returned even if the
    original upload path would resolve. *)
Theorem fallback_without_static_folder image_to_display_path filepath w e :
  abspath image_to_display_path w = Raise e \/
  (exists abs_image,
      abspath image_to_display_path w = Ok abs_image /\
      abspath static_folder w = Raise e) ->
  resolve image_to_display_path filepath w = "uploads/default_image.jpg".
Proof.
  intros [Himage | (abs_image & Himage & Hstatic)];
    unfold resolve, resolve_first, resolve_original;
    rewrite Himage; try rewrite Hstatic;
    destruct (abspath filepath w); reflexivity.
Qed.

(** X13. The image path of every rendered page holds no backslash. *)
Theorem page_path_has_no_backslash files st template ctx st' :
  predict files st = (Ok (Rendered template ctx), st') ->
  no_backslash (ctx_img_path ctx) = true.
Proof.
  intros Hrun.
  destruct (predict_rendered_inv _ _ _ _ _ Hrun)
    as (file & m & results & l & _ & _ & Hpage).
  injection Hpage as _ ->. cbn [ctx_img_path].
  apply resolve_no_backslash.
Qed.

(** X14. With Werkzeug's sanitizer, whatever the raw filename is, the
    upload is stored directly inside the uploads folder and the results
    directory lies directly inside the results folder: both names are
    free of path separators, and the stored name is neither "." nor
    "..". *)
Theorem upload_confined nfkd_ascii file :
  (forall raw, secure_filename raw = werkzeug.secure_filename nfkd_ascii raw) ->
  exists name stem,
    filepath_of file = "static/uploads/" ++ name /\
    result_dir_of file = "static/results/result_" ++ stem /\
    no_separator name = true /\
    no_separator stem = true /\
    name <> "." /\ name <> "..".
Proof.
  intros Hsanitizer.
  exists (secure_filename (filename file)),
         (fst (posixpath.splitext (secure_filename (filename file)))).
  pose proof (werkzeug_facts.secure_filename_safe nfkd_ascii (filename file))
    as Hsafe.
  pose proof (werkzeug_facts.secure_filename_relative nfkd_ascii
                (filename file)) as Hrelative.
  rewrite <- Hsanitizer in Hsafe, Hrelative.
  assert (Hname : no_separator (secure_filename (filename file)) = true).
  { exact (pystr_facts.all_weaken _ _ _ werkzeug_facts.safe_not_sep Hsafe). }
  split; [|split; [|split; [|split; [|split]]]].
  - unfold filepath_of, posixpath.join. rewrite Hrelative. reflexivity.
  - reflexivity.
  - exact Hname.
  - apply splitext_root_all, Hname.
  - intros Heq. rewrite Hsanitizer in Heq.
    pose proof (pystr_facts.lstrip_head werkzeug.dot_or_underscore) as Hhead.
    unfold werkzeug.secure_filename, pystr.strip in Heq.
    match type of Heq with
    | pystr.rstrip _ (pystr.lstrip _ ?s) = _ => specialize (Hhead s);
        destruct (pystr.lstrip werkzeug.dot_or_underscore s) as [|c r]
    end; [discriminate|].
    cbn [pystr.rstrip] in Heq.
    destruct (pystr.rstrip werkzeug.dot_or_underscore r);
      [rewrite Hhead in Heq|]; injection Heq as -> ; discriminate.
  - intros Heq. rewrite Hsanitizer in Heq.
    pose proof (pystr_facts.lstrip_head werkzeug.dot_or_underscore) as Hhead.
    unfold werkzeug.secure_filename, pystr.strip in Heq.
    match type of Heq with
    | pystr.rstrip _ (pystr.lstrip _ ?s) = _ => specialize (Hhead s);
        destruct (pystr.lstrip werkzeug.dot_or_underscore s) as [|c r]
    end; [discriminate|].
    cbn [pystr.rstrip] in Heq.
    destruct (pystr.rstrip werkzeug.dot_or_underscore r);
      [rewrite Hhead in Heq|]; injection Heq as -> ; discriminate.
Qed.

(** X15. When the original upload is the image on display, the fallback
    tier never helps: the page carries the path of the first computation,
    or the placeholder. *)
Theorem upload_resolves_or_placeholder filepath w :
  resolve filepath filepath w
  = match fst (resolve_first filepath w) with
    | Ok img_path_for_html => img_path_for_html
    | Raise _ => "uploads/default_image.jpg"
    end.
Proof.
  unfold resolve, resolve_first, resolve_original.
  destruct (abspath filepath w) as [abs_original|] eqn:Habs;
    [|reflexivity].
  destruct (abspath static_folder w) as [abs_static|]; [|reflexivity].
  destruct (relpath abs_original abs_static w) eqn:Hrel; cbn [fst].
  - reflexivity.
  - rewrite Hrel. reflexivity.
Qed.

(** X16. The search displays the first entry with an image suffix and no
    other: when it finds a path, the listing splits into entries without
    an image suffix, the entry found, and the rest; when it finds none,
    no entry has an image suffix. *)
Theorem first_match_wins result_dir entries :
  match first_image result_dir entries with
  | Some path =>
      exists before file_in_dir after,
        entries = (before ++ file_in_dir :: after)%list /\
        forallb (fun entry => negb (is_image entry)) before = true /\
        is_image file_in_dir = true /\
        path = posixpath.join result_dir file_in_dir
  | None => forallb (fun entry => negb (is_image entry)) entries = true
  end.
Proof.
  induction entries as [|entry more IH]; cbn [first_image forallb].
  - reflexivity.
  - destruct (is_image entry) eqn:Himage.
    + exists [], entry, more. repeat split. exact Himage.
    + destruct (first_image result_dir more) as [path|].
      * destruct IH as (before & f & after & -> & Hbefore & Hf & ->).
        exists (entry :: before), f, after. repeat split; [|exact Hf].
        cbn [forallb]. rewrite Himage, Hbefore. reflexivity.
      * cbn [negb andb]. exact IH.
Qed.

(** X17. Once the upload is stored and the model has answered, the
    handler renders result.html with status 200 for every shape of the
    results, provided the results directory is missing or can be
    listed; it performs no further effect. *)
Theorem answered_request_renders files st file m results st' :
  answered files st file m results st' ->
  searchable (result_dir_of file) (world st') ->
  exists ctx,
    predict files st = (Ok (Rendered "result.html" ctx), st') /\
    status_code (Rendered "result.html" ctx) = 200%Z.
Proof.
  intros Hanswered Hsearch.
  pose proof Hanswered as (_ & _ & Hmodel & _).
  assert (Hprocessed :
            exists l,
              process_results results (filepath_of file) (result_dir_of file)
                              st' = (Ok l, st')).
  { destruct results as [|r rest]; [eexists; reflexivity|].
    destruct (boxes r) as [bs|] eqn:Hboxes.
    - destruct bs as [|box more].
      + eexists. apply process_no_detections. right. exact Hboxes.
      + destruct (find_annotated_searchable _ st' Hsearch) as [found Hfound].
        eexists.
        apply (process_detections m r rest (box :: more) _ _ st' found
                 Hmodel Hboxes); [cbn; lia | exact Hfound].
    - eexists. apply process_no_detections. left. exact Hboxes. }
  destruct Hprocessed as [l Hprocessed].
  rewrite (predict_rendered _ _ _ _ _ _ _ Hanswered Hprocessed).
  eexists. split; reflexivity.
Qed.

(** X18. The results directory is named after the sanitized file name
    without its extension: the name splits into a root and an extension
    that is empty or begins with the name's last dot, and the model is
    told to write into "result_" followed by the root. *)
Theorem result_name_drops_extension filename :
  exists root ext,
    filename = root ++ ext /\
    result_name_of filename = "result_" ++ root /\
    (ext = "" \/
     exists rest,
       ext = String "." rest /\
       pystr.all (fun d => negb (Ascii.eqb d ".")) rest = true).
Proof.
  destruct (splitext_split filename) as (root & ext & Hsplit & Hname & Hext).
  exists root, ext. split; [exact Hname|]. split; [|exact Hext].
  unfold result_name_of. rewrite Hsplit. reflexivity.
Qed.

End Extras.

(* ================================================================== *)
(** ** The further properties on the reference host *)

Module more_on_refhost.
Import refhost demo demo_more.

Ltac run := vm_compute; reflexivity.

Ltac answered_by_running :=
  repeat split; [discriminate|]; eexists; repeat split.

Lemma empty_result_sequence_witness :
  @answered (host (Some mute)) [("file", ship)] (arrival mute)
            ship mute [] (departure mute ship) /\
  @predict (host (Some mute)) [("file", ship)] (arrival mute)
  = (Ok (Rendered "result.html"
           {| ctx_predictions := [];
              ctx_alert := "Prediction failed.";
              ctx_img_path := "uploads/My_ship.jpg";
              ctx_class_counts := [] |}),
     departure mute ship).
Proof.
  assert (Hanswered :
            @answered (host (Some mute)) [("file", ship)] (arrival mute)
                      ship mute [] (departure mute ship)).
  { answered_by_running. }
  split; [exact Hanswered|].
  exact (@empty_result_sequence (host (Some mute)) _ _ _ _ _ Hanswered).
Defined.

Lemma annotated_image_displayed_witness :
  @answered (host (Some annotating)) [("file", ship)] (arrival annotating)
            ship annotating detections (departure annotating ship) /\
  (1 <= List.length [mine; wreck; unnamed; faint_mine])%nat /\
  @path_exists (host (Some annotating))
               (@result_dir_of (host (Some annotating)) ship)
               (world (departure annotating ship)) = true /\
  @listdir (host (Some annotating))
           (@result_dir_of (host (Some annotating)) ship)
           (world (departure annotating ship))
  = Ok (["labels"] ++ "My_ship.JPG" :: [])%list /\
  forallb (fun entry => negb (is_image entry)) ["labels"] = true /\
  is_image "My_ship.JPG" = true /\
  exists shown counts,
    @predict (host (Some annotating)) [("file", ship)] (arrival annotating)
    = (Ok (Rendered "result.html"
             {| ctx_predictions := shown;
                ctx_alert := MINE_AHEAD;
                ctx_img_path := "results/result_My_ship/My_ship.JPG";
                ctx_class_counts := counts |}),
       departure annotating ship).
Proof.
  assert (Hanswered :
            @answered (host (Some annotating)) [("file", ship)]
                      (arrival annotating) ship annotating detections
                      (departure annotating ship)).
  { answered_by_running. }
  assert (Hlen : (1 <= List.length [mine; wreck; unnamed; faint_mine])%nat).
  { cbn. lia. }
  assert (Hexists :
            @path_exists (host (Some annotating))
                         (@result_dir_of (host (Some annotating)) ship)
                         (world (departure annotating ship)) = true).
  { run. }
  assert (Hlist :
            @listdir (host (Some annotating))
                     (@result_dir_of (host (Some annotating)) ship)
                     (world (departure annotating ship))
            = Ok (["labels"] ++ "My_ship.JPG" :: [])%list).
  { run. }
  assert (Hbefore :
            forallb (fun entry => negb (is_image entry)) ["labels"] = true).
  { run. }
  assert (Himage : is_image "My_ship.JPG" = true).
  { run. }
  repeat (split; [assumption|]).
  eexists. eexists.
  exact (@annotated_image_displayed (host (Some annotating)) _ _ _ _ _ _ _ []
           _ _ _ _ Hanswered eq_refl eq_refl Hlen Hexists Hlist Hbefore
           Himage).
Defined.

Lemma model_not_loaded_witness :
  @valid_upload [("file", ship)] ship /\
  @model (host None) = load_model (Raise (OSError "ENOENT")) /\
  @save (host None) ship (@filepath_of (host None) ship) boot
  = (Ok tt, {| cwd := Some "/srv/app"; dirs := dirs boot;
               files := ["static/uploads/My_ship.jpg"] |}) /\
  @predict (host None) [("file", ship)] (start (host None) boot)
  = (Raise AttributeError,
     @Build_St (host None)
       {| cwd := Some "/srv/app"; dirs := dirs boot;
          files := ["static/uploads/My_ship.jpg"] |}
       [Saved "static/uploads/My_ship.jpg"]).
Proof.
  assert (Hvalid : @valid_upload [("file", ship)] ship).
  { split; [reflexivity | discriminate]. }
  split; [exact Hvalid|]. split; [reflexivity|]. split; [reflexivity|].
  exact (@model_not_loaded (host None) [("file", ship)]
           (start (host None) boot) ship (OSError "ENOENT") _
           Hvalid eq_refl eq_refl).
Defined.

Lemma upstream_failure_propagates_witness :
  @valid_upload [("file", ship)] ship /\
  @predict (host (Some broken)) [("file", ship)] (arrival broken)
  = (Raise (ModelError "corrupt image"), departure broken ship).
Proof.
  assert (Hvalid : @valid_upload [("file", ship)] ship).
  { split; [reflexivity | discriminate]. }
  split; [exact Hvalid|].
  destruct (@upstream_failure_propagates (host (Some broken))
              [("file", ship)] (arrival broken) ship Hvalid)
    as [_ Hmodel].
  exact (Hmodel broken (ModelError "corrupt image") _ _
           eq_refl eq_refl eq_refl).
Defined.

Lemma listing_failure_propagates_witness :
  @answered (host (Some dirless)) [("file", ship)]
            (start (host (Some dirless)) clobbered)
            ship dirless detections
            (snd (@predict (host (Some dirless)) [("file", ship)]
                           (start (host (Some dirless)) clobbered))) /\
  (1 <= List.length [mine; wreck; unnamed; faint_mine])%nat /\
  @predict (host (Some dirless)) [("file", ship)]
           (start (host (Some dirless)) clobbered)
  = (Raise (OSError "ENOTDIR"),
     snd (@predict (host (Some dirless)) [("file", ship)]
                   (start (host (Some dirless)) clobbered))).
Proof.
  assert (Hanswered :
            @answered (host (Some dirless)) [("file", ship)]
                      (start (host (Some dirless)) clobbered)
                      ship dirless detections
                      (snd (@predict (host (Some dirless)) [("file", ship)]
                                     (start (host (Some dirless)) clobbered)))).
  { answered_by_running. }
  assert (Hlen : (1 <= List.length [mine; wreck; unnamed; faint_mine])%nat).
  { cbn. lia. }
  split; [exact Hanswered|]. split; [exact Hlen|].
  exact (@listing_failure_propagates (host (Some dirless)) _ _ _ _ _ _ _ []
           _ (OSError "ENOTDIR") Hanswered eq_refl eq_refl Hlen
           eq_refl eq_refl).
Defined.

Lemma counts_match_predictions_witness :
  exists ctx,
    @predict (host (Some annotating)) [("file", ship)] (arrival annotating)
    = (Ok (Rendered "result.html" ctx), departure annotating ship) /\
    pydict.get String.eqb (ctx_class_counts ctx) "MILCO" = Some 2%Z /\
    pydict.get String.eqb (ctx_class_counts ctx) "NOMBO" = Some 1%Z /\
    pydict.get String.eqb (ctx_class_counts ctx) "wreck" = None.
Proof.
  eexists. split; [run|].
  match goal with
  | |- pydict.get _ (ctx_class_counts ?c) _ = _ /\ _ =>
      destruct (@counts_match_predictions (host (Some annotating))
                  [("file", ship)] (arrival annotating) "result.html" c
                  (departure annotating ship) eq_refl) as [_ Hget]
  end.
  split; [|split].
  - rewrite (Hget "MILCO"). reflexivity.
  - rewrite (Hget "NOMBO"). reflexivity.
  - rewrite (Hget "wreck"). reflexivity.
Defined.

Lemma unmapped_class_never_alerts_witness :
  pydict.get Z.eqb NAMES 7%Z = None /\
  label_of NAMES 7%Z = "Class 7" /\
  alert_message
    (@detect (host None) NAMES (fresh "static/uploads/My_ship.jpg") unnamed)
  = "".
Proof.
  assert (Hmissing : pydict.get Z.eqb NAMES 7%Z = None).
  { reflexivity. }
  destruct (@unmapped_class_never_alerts (host None) NAMES 7%Z Hmissing)
    as [Hlabel Hquiet].
  split; [exact Hmissing|]. split; [exact Hlabel|].
  exact (Hquiet (fresh "static/uploads/My_ship.jpg") (conf unnamed)).
Defined.

Lemma rendered_page_invariant_witness :
  exists ctx,
    @predict (host (Some unannotated)) [("file", ship)] (arrival unannotated)
    = (Ok (Rendered "result.html" ctx), departure unannotated ship) /\
    sum_values (ctx_class_counts ctx)
    = Z.of_nat (List.length (ctx_predictions ctx)) /\
    In (ctx_alert ctx)
       [""; MINE_AHEAD; NOT_FOUND; NO_OBJECTS; PREDICTION_FAILED].
Proof.
  eexists. split; [run|].
  match goal with
  | |- sum_values (ctx_class_counts ?c) = _ /\ _ =>
      destruct (@rendered_page_invariant (host (Some unannotated))
                  [("file", ship)] (arrival unannotated) "result.html" c
                  (departure unannotated ship) eq_refl)
        as (_ & Hsum & Halert & _)
  end.
  split; [exact Hsum | exact Halert].
Defined.

Lemma mine_alert_needs_milco_witness :
  exists ctx,
    @predict (host (Some annotating)) [("file", ship)] (arrival annotating)
    = (Ok (Rendered "result.html" ctx), departure annotating ship) /\
    ctx_alert ctx = MINE_AHEAD /\
    exists p, In p (ctx_predictions ctx) /\ pystr.lower (label p) = "milco".
Proof.
  eexists. split; [run|]. split; [reflexivity|].
  exact (@mine_alert_needs_milco (host (Some annotating))
           [("file", ship)] (arrival annotating) "result.html" _
           (departure annotating ship) eq_refl eq_refl).
Defined.

Lemma fallback_without_static_folder_witness :
  (@abspath (host None) "static/results/result_My_ship/My_ship.JPG" adrift
   = Raise (OSError "ENOENT")
   \/
   exists abs_image,
     @abspath (host None) "static/results/result_My_ship/My_ship.JPG" adrift
     = Ok abs_image /\
     @abspath (host None) (@static_folder (host None)) adrift
     = Raise (OSError "ENOENT")) /\
  @abspath (host None) "/srv/app/static/uploads/My_ship.jpg" adrift
  = Ok "/srv/app/static/uploads/My_ship.jpg" /\
  @resolve (host None) "static/results/result_My_ship/My_ship.JPG"
           "/srv/app/static/uploads/My_ship.jpg" adrift
  = "uploads/default_image.jpg".
Proof.
  assert (Hfails :
            @abspath (host None) "static/results/result_My_ship/My_ship.JPG"
                     adrift = Raise (OSError "ENOENT")
            \/
            exists abs_image,
              @abspath (host None)
                       "static/results/result_My_ship/My_ship.JPG" adrift
              = Ok abs_image /\
              @abspath (host None) (@static_folder (host None)) adrift
              = Raise (OSError "ENOENT")).
  { left. reflexivity. }
  split; [exact Hfails|]. split; [reflexivity|].
  exact (@fallback_without_static_folder (host None) _ _ adrift _ Hfails).
Defined.

Lemma page_path_has_no_backslash_witness :
  exists ctx,
    @predict (host (Some annotating)) [("file", ship)] (arrival annotating)
    = (Ok (Rendered "result.html" ctx), departure annotating ship) /\
    no_backslash (ctx_img_path ctx) = true.
Proof.
  eexists. split; [run|].
  exact (@page_path_has_no_backslash (host (Some annotating))
           [("file", ship)] (arrival annotating) "result.html" _
           (departure annotating ship) eq_refl).
Defined.

Lemma upload_confined_witness :
  (forall raw,
      @secure_filename (host None) raw
      = werkzeug.secure_filename werkzeug.ascii_ignore raw) /\
  exists name stem,
    @filepath_of (host None) ship = "static/uploads/" ++ name /\
    @result_dir_of (host None) ship = "static/results/result_" ++ stem /\
    no_separator name = true /\
    no_separator stem = true /\
    name <> "." /\ name <> "..".
Proof.
  assert (Hsanitizer :
            forall raw,
              @secure_filename (host None) raw
              = werkzeug.secure_filename werkzeug.ascii_ignore raw).
  { intros raw. reflexivity. }
  split; [exact Hsanitizer|].
  exact (@upload_confined (host None) werkzeug.ascii_ignore ship Hsanitizer).
Defined.

Lemma answered_request_renders_witness :
  @answered (host (Some annotating)) [("file", ship)] (arrival annotating)
            ship annotating detections (departure annotating ship) /\
  @searchable (host (Some annotating))
              (@result_dir_of (host (Some annotating)) ship)
              (world (departure annotating ship)) /\
  exists ctx,
    @predict (host (Some annotating)) [("file", ship)] (arrival annotating)
    = (Ok (Rendered "result.html" ctx), departure annotating ship) /\
    status_code (Rendered "result.html" ctx) = 200%Z.
Proof.
  assert (Hanswered :
            @answered (host (Some annotating)) [("file", ship)]
                      (arrival annotating) ship annotating detections
                      (departure annotating ship)).
  { answered_by_running. }
  assert (Hsearch :
            @searchable (host (Some annotating))
                        (@result_dir_of (host (Some annotating)) ship)
                        (world (departure annotating ship))).
  { right. eexists. run. }
  split; [exact Hanswered|]. split; [exact Hsearch|].
  exact (@answered_request_renders (host (Some annotating)) _ _ _ _ _ _
           Hanswered Hsearch).
Defined.

End more_on_refhost.
